(** * Realtime-ChatApp: the chat relay server and the ChatApp.vue client

    A shallow embedding of the two programs of the repository:

    - the socket.io server (the [io.on('connection', ...)] handlers with
      their shared [users] map and [messageHistory] array), in [Server];
    - the script of the [ChatApp.vue] component (its refs, button handlers
      and socket listeners), in [Client].

    JavaScript strings are modelled as [string]; a character stands for one
    UTF-16 code unit below 256.  Socket ids, user names, message bodies and
    time labels are strings, as the client sends them and as socket.io makes
    them.  The wall clock ([new Date().toLocaleTimeString(...)]) is an input
    of each server event. *)

From Stdlib Require Import String Ascii List ZArith Lia Bool.
From stdpp Require Import gmap strings list fin_maps.

Open Scope string_scope.
Open Scope list_scope.

(** ** JavaScript strings *)

Module JS.

(** [if (s)] on a string: every string but the empty one is truthy. *)
Definition truthy (s : string) : bool :=
  match s with
  | EmptyString => false
  | String _ _ => true
  end.

(** [hay.includes(needle)]: [needle] occurs in [hay] at some position. *)
Fixpoint includes (needle hay : string) : bool :=
  String.prefix needle hay
  || match hay with
     | EmptyString => false
     | String _ rest => includes needle rest
     end.

(** White space and line terminators of ECMAScript among the code units
    below 256: TAB, LF, VT, FF, CR, SP and NBSP. *)
Definition is_white_space (c : ascii) : bool :=
  let n := nat_of_ascii c in
  (n =? 9)%nat || (n =? 10)%nat || (n =? 11)%nat || (n =? 12)%nat
  || (n =? 13)%nat || (n =? 32)%nat || (n =? 160)%nat.

Fixpoint trimStart (s : string) : string :=
  match s with
  | EmptyString => EmptyString
  | String c rest => if is_white_space c then trimStart rest else s
  end.

(** Drops the trailing white space: a character is kept when it is not white
    space or when something is kept after it. *)
Fixpoint trimEnd (s : string) : string :=
  match s with
  | EmptyString => EmptyString
  | String c rest =>
      match trimEnd rest with
      | EmptyString => if is_white_space c then EmptyString else String c EmptyString
      | kept => String c kept
      end
  end.

(** [s.trim()] *)
Definition trim (s : string) : string := trimEnd (trimStart s).

(** Every character of [s] is white space. *)
Fixpoint blank (s : string) : bool :=
  match s with
  | EmptyString => true
  | String c rest => is_white_space c && blank rest
  end.

(** Does [c] occur in [s]? *)
Fixpoint occurs (c : ascii) (s : string) : bool :=
  match s with
  | EmptyString => false
  | String d rest => Ascii.eqb c d || occurs c rest
  end.

End JS.

(** ** Events on the wire

    The object literals [joinEvent], [messageEvent] and [leftEvent] of the
    server: the same four fields, and [totalUsers] on a [leftEvent] only.
    The history array holds these objects, and the client reads them. *)

Module Wire.

Record event := Event {
  userId : string;
  userName : string;
  message : string;
  timestamp : string;
  totalUsers : option nat
}.

End Wire.

(** ** The server *)

Module Server.

Definition MAX_HISTORY : nat := 100.

(** [messageHistory.push(e); if (messageHistory.length > cap)
    messageHistory.shift();] -- the three handlers repeat these lines with
    [cap = MAX_HISTORY]. *)
Definition append_history (cap : nat) (h : list Wire.event) (e : Wire.event) : list Wire.event :=
  let pushed := h ++ [e] in
  if (cap <? length pushed)%nat then tail pushed else pushed.

(** [users] is a [Map] from socket id to user name, [messageHistory] an
    array of events, oldest first. *)
Record state := State {
  users : gmap string string;
  messageHistory : list Wire.event
}.

Definition initial : state := State ∅ [].

(** What a handler sends: [socket.emit] goes to one socket, [io.emit] to
    every connected socket. *)
Inductive emit :=
| socket_emit_load_history (to : string) (history : list Wire.event)
| socket_emit_users_list (to : string) (usersList : gmap string string)
| io_emit_user_joined (e : Wire.event)
| io_emit_user_reconnected (userId userName : string)
| io_emit_receive_message (e : Wire.event)
| io_emit_user_left (e : Wire.event).

(** [Array.from(users.values()).includes(userName)] *)
Definition values_include (m : gmap string string) (name : string) : bool :=
  bool_decide (name ∈ (map_to_list m).*2).

Definition joinEvent (id name now : string) : Wire.event :=
  Wire.Event id name (name +:+ " joined the chat") now None.

Definition messageEvent (id name body now : string) : Wire.event :=
  Wire.Event id name body now None.

Definition leftEvent (id name now : string) (total : nat) : Wire.event :=
  Wire.Event id name (name +:+ " left the chat") now (Some total).

(** [io.on('connection', (socket) => { ... socket.emit('load_history',
    messageHistory); ... })] *)
Definition on_connection (id : string) (st : state) : state * list emit :=
  (st, [socket_emit_load_history id (messageHistory st)]).

(** [socket.on('user_join', (userName) => ...)] *)
Definition on_user_join (id name now : string) (st : state) : state * list emit :=
  let userAlreadyExists := values_include (users st) name in
  let users' := <[id := name]> (users st) in
  if negb userAlreadyExists then
    let e := joinEvent id name now in
    (State users' (append_history MAX_HISTORY (messageHistory st) e),
     [io_emit_user_joined e])
  else
    (State users' (messageHistory st), [io_emit_user_reconnected id name]).

(** [socket.on('send_message', (data) => ...)], [body] being
    [data.message]. *)
Definition on_send_message (id body now : string) (st : state) : state * list emit :=
  match users st !! id with
  | Some name =>
      if JS.truthy name then
        let e := messageEvent id name body now in
        (State (users st) (append_history MAX_HISTORY (messageHistory st) e),
         [io_emit_receive_message e])
      else (st, [])
  | None => (st, [])
  end.

(** [socket.on('get_users', ...)].  The array of the [{ id, name }] pairs of
    the [Map] is modelled by the finite map from id to name that it lists:
    each socket id once, with its name; the order of the array (that of
    insertion in the [Map]) is not part of the model. *)
Definition on_get_users (id : string) (st : state) : state * list emit :=
  (st, [socket_emit_users_list id (users st)]).

(** [socket.on('disconnect', ...)]: the entry is deleted before the name is
    tested, and [totalUsers] is the size after the deletion. *)
Definition on_disconnect (id now : string) (st : state) : state * list emit :=
  let found := users st !! id in
  let users' := delete id (users st) in
  match found with
  | Some name =>
      if JS.truthy name then
        let e := leftEvent id name now (size users') in
        (State users' (append_history MAX_HISTORY (messageHistory st) e),
         [io_emit_user_left e])
      else (State users' (messageHistory st), [])
  | None => (State users' (messageHistory st), [])
  end.

(** What the transport delivers to the server. *)
Inductive input :=
| connection (id : string)
| user_join (id name now : string)
| send_message (id body now : string)
| get_users (id : string)
| disconnect (id now : string).

Definition handle (i : input) (st : state) : state * list emit :=
  match i with
  | connection id => on_connection id st
  | user_join id name now => on_user_join id name now st
  | send_message id body now => on_send_message id body now st
  | get_users id => on_get_users id st
  | disconnect id now => on_disconnect id now st
  end.

(** The server runs its handlers one after the other. *)
Fixpoint run (inputs : list input) (st : state) : state * list emit :=
  match inputs with
  | [] => (st, [])
  | i :: rest =>
      let '(st1, out1) := handle i st in
      let '(st2, out2) := run rest st1 in
      (st2, out1 ++ out2)
  end.

(** The events among the broadcasts of a run, in the order they were sent:
    [user_joined], [receive_message] and [user_left] carry the event object
    their handler has just pushed on the history. *)
Definition broadcast_event (m : emit) : option Wire.event :=
  match m with
  | io_emit_user_joined e | io_emit_receive_message e | io_emit_user_left e => Some e
  | _ => None
  end.

Definition broadcast_events (out : list emit) : list Wire.event :=
  omap broadcast_event out.

End Server.

(** ** Plain objects used as dictionaries

    [const userJoins = {}] of the client's [load_history] listener: the own
    properties of an ordinary object, in the order of their creation. *)

Module JSObject.

Definition t := list (string * string).

Definition empty : t := [].

Definition has (k : string) (o : t) : bool :=
  existsb (fun kv => String.eqb (fst kv) k) o.

(** [o[k] = v] with a string [v].  An existing property keeps its place, a
    new one goes last.  The key [__proto__] is not stored: the assignment
    runs the setter of [Object.prototype], which ignores a string. *)
Definition set (k v : string) (o : t) : t :=
  if String.eqb k "__proto__" then o
  else if has k o then
    map (fun kv => if String.eqb (fst kv) k then (k, v) else kv) o
  else o ++ [(k, v)].

(** [delete o[k]] *)
Definition delete (k : string) (o : t) : t :=
  List.filter (fun kv => negb (String.eqb (fst kv) k)) o.

Definition digit_value (c : ascii) : option N :=
  let n := N_of_ascii c in
  if ((48 <=? n) && (n <=? 57))%N then Some (n - 48)%N else None.

Fixpoint decimal_value (acc : N) (s : string) : option N :=
  match s with
  | EmptyString => Some acc
  | String c rest =>
      match digit_value c with
      | Some d => decimal_value (10 * acc + d)%N rest
      | None => None
      end
  end.

(** An array index is the canonical decimal form of an integer below
    [2^32 - 1]: digits only, and no leading zero but in ["0"]. *)
Definition array_index (k : string) : option N :=
  match k with
  | EmptyString => None
  | String c rest =>
      if Ascii.eqb c "0"%char && JS.truthy rest then None
      else
        match decimal_value 0 k with
        | Some n => if (n <? 2 ^ 32 - 1)%N then Some n else None
        | None => None
        end
  end.

Fixpoint insert_by_index (p : N * (string * string))
    (l : list (N * (string * string))) : list (N * (string * string)) :=
  match l with
  | [] => [p]
  | q :: rest =>
      if (fst p <=? fst q)%N then p :: l else q :: insert_by_index p rest
  end.

(** [Object.entries(o)]: the array indices first, in ascending order, then
    the other keys in the order of their creation. *)
Definition entries (o : t) : list (string * string) :=
  let indexed :=
    fold_right
      (fun kv acc =>
         match array_index (fst kv) with
         | Some n => insert_by_index (n, kv) acc
         | None => acc
         end) [] o in
  map snd indexed
  ++ List.filter
       (fun kv => match array_index (fst kv) with Some _ => false | None => true end) o.

End JSObject.

(** ** The client: the script of ChatApp.vue *)

Module Client.

(** An element of [users.value]: [{ id, name }]. *)
Record user := User { id : string; name : string }.

(** An element of [messages.value], by its [type] field: ['system'] entries
    carry a text and a time, ['message'] entries the sender and [isOwn]
    as well. *)
Inductive entry :=
| system (message timestamp : string)
| chat (userId userName message timestamp : string) (isOwn : bool).

Definition entry_timestamp (m : entry) : string :=
  match m with
  | system _ ts => ts
  | chat _ _ _ ts _ => ts
  end.

(** The refs of the component ([socket] apart, which is the transport). *)
Record state := State {
  userName : string;
  messageInput : string;
  messages : list entry;
  users : list user;
  isConnected : bool;
  loginPhase : bool;
  showConnectionModal : bool;
  showInitialConnectPrompt : bool
}.

(** The component as mounted. *)
Definition initial : state := State "" "" [] [] false true false false.

Definition set_messageInput (v : string) (st : state) : state :=
  State (userName st) v (messages st) (users st) (isConnected st)
        (loginPhase st) (showConnectionModal st) (showInitialConnectPrompt st).

Definition set_userName (v : string) (st : state) : state :=
  State v (messageInput st) (messages st) (users st) (isConnected st)
        (loginPhase st) (showConnectionModal st) (showInitialConnectPrompt st).

Definition set_messages (v : list entry) (st : state) : state :=
  State (userName st) (messageInput st) v (users st) (isConnected st)
        (loginPhase st) (showConnectionModal st) (showInitialConnectPrompt st).

Definition set_users (v : list user) (st : state) : state :=
  State (userName st) (messageInput st) (messages st) v (isConnected st)
        (loginPhase st) (showConnectionModal st) (showInitialConnectPrompt st).

Definition set_isConnected (v : bool) (st : state) : state :=
  State (userName st) (messageInput st) (messages st) (users st) v
        (loginPhase st) (showConnectionModal st) (showInitialConnectPrompt st).

Definition set_loginPhase (v : bool) (st : state) : state :=
  State (userName st) (messageInput st) (messages st) (users st) (isConnected st)
        v (showConnectionModal st) (showInitialConnectPrompt st).

Definition set_showConnectionModal (v : bool) (st : state) : state :=
  State (userName st) (messageInput st) (messages st) (users st) (isConnected st)
        (loginPhase st) v (showInitialConnectPrompt st).

Definition set_showInitialConnectPrompt (v : bool) (st : state) : state :=
  State (userName st) (messageInput st) (messages st) (users st) (isConnected st)
        (loginPhase st) (showConnectionModal st) v.

(** The callbacks handed to [setTimeout]. *)
Inductive timer := join_after_prompt | join_after_reconnect.

(** What a handler asks of the socket and of the timers. *)
Inductive command :=
| socket_connect
| socket_disconnect
| socket_emit_user_join (name : string)
| socket_emit_send_message (body : string)
| setTimeout (callback : timer) (ms : nat).

(** [messages.value[index]]: [undefined] outside the array. *)
Definition item {A : Type} (l : list A) (index : Z) : option A :=
  if (index <? 0)%Z then None else l !! Z.to_nat index.

Definition shouldShowTimeSeparator (index : Z) (st : state) : bool :=
  if (index =? 0)%Z then false
  else
    match item (messages st) index, item (messages st) (index - 1) with
    | Some currentMsg, Some prevMsg =>
        negb (String.eqb (entry_timestamp currentMsg) (entry_timestamp prevMsg))
    | _, _ => false
    end.

Definition joinChat (st : state) : state * list command :=
  if JS.truthy (JS.trim (userName st)) then
    (set_showInitialConnectPrompt true (set_loginPhase false st), [])
  else (st, []).

Definition sendMessage (st : state) : state * list command :=
  if JS.truthy (JS.trim (messageInput st)) then
    (set_messageInput "" st, [socket_emit_send_message (messageInput st)])
  else (st, []).

(** [socket.value.disconnect()] may run the [disconnect] listener at once;
    it sets [isConnected] to false, as the last line here does. *)
Definition leaveChat (st : state) : state * list command :=
  (set_isConnected false
     (set_userName ""
        (set_users [] (set_messages [] (set_loginPhase true st)))),
   [socket_disconnect]).

Definition toggleConnectionModal (st : state) : state * list command :=
  (set_showConnectionModal false st, []).

(** [connected] is [socket.value.connected]. *)
Definition connectFromPrompt (connected : bool) (st : state) : state * list command :=
  (st, (if negb connected then [socket_connect] else [])
       ++ [setTimeout join_after_prompt 100]).

Definition toggleConnection (st : state) : state * list command :=
  if isConnected st then
    (set_showConnectionModal true (set_isConnected false st), [socket_disconnect])
  else if JS.truthy (JS.trim (userName st)) then
    (st, [socket_connect; setTimeout join_after_reconnect 200])
  else (st, []).

(** A timer fires: the name is read at that moment. *)
Definition on_timer (t : timer) (st : state) : state * list command :=
  match t with
  | join_after_prompt =>
      (set_showInitialConnectPrompt false st, [socket_emit_user_join (userName st)])
  | join_after_reconnect =>
      (set_showConnectionModal false st, [socket_emit_user_join (userName st)])
  end.

Definition on_connect (st : state) : state := set_isConnected true st.

(** The body of [history.forEach] in the [load_history] listener, on the
    pair of [userJoins] and [userLefts]. *)
Definition scan_history (acc : JSObject.t * gset string) (msg : Wire.event)
    : JSObject.t * gset string :=
  let '(userJoins, userLefts) := acc in
  if JS.truthy (Wire.message msg) && JS.includes "joined" (Wire.message msg) then
    (JSObject.set (Wire.userName msg) (Wire.userId msg) userJoins,
     userLefts ∖ {[Wire.userName msg]})
  else if JS.truthy (Wire.message msg) && JS.includes "left" (Wire.message msg) then
    (JSObject.delete (Wire.userName msg) userJoins,
     {[Wire.userName msg]} ∪ userLefts)
  else acc.

(** The callback of [history.map] in the [load_history] listener. *)
Definition to_entry (localName : string) (msg : Wire.event) : entry :=
  if JS.truthy (Wire.message msg)
     && (JS.includes "joined" (Wire.message msg) || JS.includes "left" (Wire.message msg))
  then system (Wire.message msg) (Wire.timestamp msg)
  else
    chat (Wire.userId msg) (Wire.userName msg) (Wire.message msg) (Wire.timestamp msg)
         (String.eqb (Wire.userName msg) localName).

Definition rebuild_users (history : list Wire.event) : list user :=
  let '(userJoins, _) := fold_left scan_history history (JSObject.empty, ∅) in
  map (fun kv => User (snd kv) (fst kv)) (JSObject.entries userJoins).

(** [socket.on('load_history', (history) => ...)] *)
Definition on_load_history (history : list Wire.event) (st : state) : state :=
  set_messages (map (to_entry (userName st)) history)
    (set_users (rebuild_users history) st).

(** [socket.on('user_joined', (data) => ...)] *)
Definition on_user_joined (data : Wire.event) (st : state) : state :=
  let userExists :=
    existsb (fun u => String.eqb (id u) (Wire.userId data)
                      || String.eqb (name u) (Wire.userName data)) (users st) in
  let users' :=
    if negb userExists then users st ++ [User (Wire.userId data) (Wire.userName data)]
    else users st in
  set_messages (messages st ++ [system (Wire.message data) (Wire.timestamp data)])
    (set_users users' st).

(** [socket.on('user_reconnected', (data) => ...)] *)
Definition on_user_reconnected (dataUserId dataUserName : string) (st : state) : state :=
  set_users
    (List.filter (fun u => negb (String.eqb (name u) dataUserName)) (users st)
     ++ [User dataUserId dataUserName]) st.

(** [socket.on('receive_message', (data) => ...)] *)
Definition on_receive_message (data : Wire.event) (st : state) : state :=
  set_messages
    (messages st
     ++ [chat (Wire.userId data) (Wire.userName data) (Wire.message data)
              (Wire.timestamp data) (String.eqb (Wire.userName data) (userName st))])
    st.

(** [socket.on('user_left', (data) => ...)] *)
Definition on_user_left (data : Wire.event) (st : state) : state :=
  set_messages (messages st ++ [system (Wire.message data) (Wire.timestamp data)])
    (set_users
       (List.filter (fun u => negb (String.eqb (id u) (Wire.userId data))) (users st))
       st).

(** [socket.on('disconnect', ...)]: the users and the messages stay. *)
Definition on_disconnect (st : state) : state := set_isConnected false st.

(** [socket.on('connect_error', ...)] only logs. *)
Definition on_connect_error (st : state) : state := st.

(** Everything that runs a piece of the script: the buttons and keys of the
    template, the timers, and what the socket delivers.  Typing in the two
    inputs bound by [v-model] is among them; the name input belongs to the
    login screen and the message input to the chat screen. *)
Inductive operation :=
| type_userName (text : string)
| type_messageInput (text : string)
| click_joinChat
| click_sendMessage
| click_leaveChat
| click_toggleConnectionModal
| click_connectFromPrompt (connected : bool)
| click_toggleConnection
| timer_fires (t : timer)
| socket_connected
| socket_load_history (history : list Wire.event)
| socket_user_joined (data : Wire.event)
| socket_user_reconnected (dataUserId dataUserName : string)
| socket_receive_message (data : Wire.event)
| socket_user_left (data : Wire.event)
| socket_disconnected
| socket_connect_error.

Definition perform (op : operation) (st : state) : state * list command :=
  match op with
  | type_userName text =>
      (if loginPhase st then set_userName text st else st, [])
  | type_messageInput text =>
      (if loginPhase st then st else set_messageInput text st, [])
  | click_joinChat => joinChat st
  | click_sendMessage => sendMessage st
  | click_leaveChat => leaveChat st
  | click_toggleConnectionModal => toggleConnectionModal st
  | click_connectFromPrompt connected => connectFromPrompt connected st
  | click_toggleConnection => toggleConnection st
  | timer_fires t => on_timer t st
  | socket_connected => (on_connect st, [])
  | socket_load_history history => (on_load_history history st, [])
  | socket_user_joined data => (on_user_joined data st, [])
  | socket_user_reconnected i n => (on_user_reconnected i n st, [])
  | socket_receive_message data => (on_receive_message data st, [])
  | socket_user_left data => (on_user_left data st, [])
  | socket_disconnected => (on_disconnect st, [])
  | socket_connect_error => (on_connect_error st, [])
  end.

End Client.

(** ** Server and client together *)

Module Session.

(** The operations of one component, one after the other, with all that
    they ask of the socket and the timers. *)
Fixpoint perform_all (ops : list Client.operation) (st : Client.state)
    : Client.state * list Client.command :=
  match ops with
  | [] => (st, [])
  | op :: rest =>
      let '(st1, out1) := Client.perform op st in
      let '(st2, out2) := perform_all rest st1 in
      (st2, out1 ++ out2)
  end.

(** What the connected socket of id [me] makes of a message of the server:
    it runs the listener registered under the name of the message.  A
    [socket.emit] reaches the socket it was sent to only, and the component
    registers no listener for [users_list]. *)
Definition deliver (me : string) (m : Server.emit) (st : Client.state) : Client.state :=
  match m with
  | Server.socket_emit_load_history to history =>
      if String.eqb to me then Client.on_load_history history st else st
  | Server.socket_emit_users_list _ _ => st
  | Server.io_emit_user_joined e => Client.on_user_joined e st
  | Server.io_emit_user_reconnected i n => Client.on_user_reconnected i n st
  | Server.io_emit_receive_message e => Client.on_receive_message e st
  | Server.io_emit_user_left e => Client.on_user_left e st
  end.

Definition deliver_all (me : string) (out : list Server.emit) (st : Client.state)
    : Client.state :=
  fold_left (fun st m => deliver me m st) out st.

(** The inputs that write the registry entry of [id]. *)
Definition announces (id : string) (i : Server.input) : bool :=
  match i with
  | Server.user_join id' _ _ => String.eqb id' id
  | _ => false
  end.

Definition closes (id : string) (i : Server.input) : bool :=
  match i with
  | Server.disconnect id' _ => String.eqb id' id
  | _ => false
  end.

(** The two tests of the [load_history] listener on the text of an event:
    the branch of [joined], and the [else if] branch of [left]. *)
Definition reads_as_join (msg : Wire.event) : bool :=
  JS.truthy (Wire.message msg) && JS.includes "joined" (Wire.message msg).

Definition reads_as_leave (msg : Wire.event) : bool :=
  negb (reads_as_join msg)
  && (JS.truthy (Wire.message msg) && JS.includes "left" (Wire.message msg)).

End Session.

(** * Properties *)

(** ** The history log *)

Section HistoryLog.

Implicit Types (h es : list Wire.event) (e : Wire.event) (cap : nat).

Lemma append_history_cases cap h e :
  Server.append_history cap h e
  = if (cap <? S (length h))%nat then tail (h ++ [e]) else h ++ [e].
Proof.
  unfold Server.append_history. rewrite length_app. simpl.
  replace (length h + 1)%nat with (S (length h)) by lia. reflexivity.
Qed.

Lemma append_history_length cap h e :
  (length h <= cap)%nat -> (length (Server.append_history cap h e) <= cap)%nat.
Proof.
  intros Hle. rewrite append_history_cases.
  destruct (Nat.ltb_spec cap (S (length h))) as [Hlt | Hge].
  - destruct h as [| x h']; simpl.
    + lia.
    + rewrite length_app. simpl in *. lia.
  - rewrite length_app. simpl. lia.
Qed.

(** Below the capacity nothing is evicted. *)
Lemma append_history_room cap h e :
  (length h < cap)%nat -> Server.append_history cap h e = h ++ [e].
Proof.
  intros Hlt. rewrite append_history_cases.
  destruct (Nat.ltb_spec cap (S (length h))); [lia | reflexivity].
Qed.

(** At the capacity the head, and only the head, is evicted. *)
Lemma append_history_full cap h e :
  length h = cap -> cap <> 0%nat -> Server.append_history cap h e = tail h ++ [e].
Proof.
  intros Hlen Hcap. rewrite append_history_cases.
  destruct (Nat.ltb_spec cap (S (length h))); [| lia].
  destruct h as [| x h']; [simpl in Hlen; lia | reflexivity].
Qed.

Lemma append_history_drop cap h e :
  (length h <= cap)%nat ->
  Server.append_history cap h e = drop (S (length h) - cap) (h ++ [e]).
Proof.
  intros Hle. rewrite append_history_cases.
  destruct (Nat.ltb_spec cap (S (length h))) as [Hlt | Hge].
  - replace (S (length h) - cap)%nat with 1%nat by lia.
    destruct (h ++ [e]); reflexivity.
  - replace (S (length h) - cap)%nat with 0%nat by lia. reflexivity.
Qed.

(** The log after the appends [es], from any log [h] within the capacity:
    the last [cap] elements of [h ++ es]. *)
Lemma fold_append_history cap es : forall h,
  (length h <= cap)%nat ->
  let log := fold_left (Server.append_history cap) es h in
  (length log <= cap)%nat /\ log = drop (length (h ++ es) - cap) (h ++ es).
Proof.
  induction es as [| e es IH]; intros h Hle; simpl.
  - split; [exact Hle |].
    rewrite app_nil_r. replace (length h - cap)%nat with 0%nat by lia. reflexivity.
  - destruct (IH (Server.append_history cap h e)
                (append_history_length cap h e Hle)) as [Hlen Heq].
    split; [exact Hlen |].
    simpl in Heq. rewrite Heq. rewrite (append_history_drop cap h e Hle).
    set (k := (S (length h) - cap)%nat).
    assert (Hk : (k <= length (h ++ [e]))%nat).
    { rewrite length_app. simpl. lia. }
    rewrite <- (drop_app_le (h ++ [e]) es k Hk).
    rewrite drop_drop. rewrite <- app_assoc. simpl.
    f_equal. rewrite !length_app, length_drop, length_app. simpl. lia.
Qed.

End HistoryLog.

(** ** The server keeps its log within the capacity *)

Section ServerLog.

Lemma handle_history i st :
  Server.messageHistory (Server.handle i st).1
  = fold_left (Server.append_history Server.MAX_HISTORY)
      (Server.broadcast_events (Server.handle i st).2) (Server.messageHistory st).
Proof.
  destruct i as [id | id name now | id body now | id | id now]; simpl.
  - reflexivity.
  - unfold Server.on_user_join.
    destruct (Server.values_include (Server.users st) name); reflexivity.
  - unfold Server.on_send_message.
    destruct (Server.users st !! id) as [name |]; [| reflexivity].
    destruct (JS.truthy name); reflexivity.
  - reflexivity.
  - unfold Server.on_disconnect.
    destruct (Server.users st !! id) as [name |]; [| reflexivity].
    destruct (JS.truthy name); reflexivity.
Qed.

Lemma run_cons i inputs st :
  Server.run (i :: inputs) st
  = ((Server.run inputs (Server.handle i st).1).1,
     (Server.handle i st).2 ++ (Server.run inputs (Server.handle i st).1).2).
Proof.
  simpl. destruct (Server.handle i st) as [st1 out1]. simpl.
  destruct (Server.run inputs st1) as [st2 out2]. reflexivity.
Qed.

Lemma run_history inputs : forall st,
  Server.messageHistory (Server.run inputs st).1
  = fold_left (Server.append_history Server.MAX_HISTORY)
      (Server.broadcast_events (Server.run inputs st).2) (Server.messageHistory st).
Proof.
  induction inputs as [| i inputs IH]; intros st.
  - reflexivity.
  - rewrite run_cons. simpl. rewrite IH.
    unfold Server.broadcast_events. rewrite omap_app, fold_left_app.
    f_equal. apply handle_history.
Qed.

End ServerLog.

(** C1.  Whatever the server has handled since its start, its history holds
    at most [MAX_HISTORY = 100] events, and they are the last ones it
    broadcast (joins, messages and leaves), oldest first.  For every capacity,
    the log after a sequence of appends is within the capacity and is the
    sequence without its first [length - capacity] elements; an append to a
    full log drops the head and nothing else; and with capacity 2 the appends
    of A, B, C leave [B; C]. *)
Theorem history_log_bounded_fifo :
  (forall inputs,
     let '(st, out) := Server.run inputs Server.initial in
     (length (Server.messageHistory st) <= 100)%nat
     /\ Server.messageHistory st
        = drop (length (Server.broadcast_events out) - 100) (Server.broadcast_events out))
  /\ (forall cap es,
        let log := fold_left (Server.append_history cap) es [] in
        (length log <= cap)%nat /\ log = drop (length es - cap) es)
  /\ (forall cap h e,
        length h = cap -> cap <> 0%nat ->
        Server.append_history cap h e = tail h ++ [e])
  /\ (forall A B C,
        fold_left (Server.append_history 2) [A; B; C] [] = [B; C]).
Proof.
  split; [| split; [| split]].
  - intros inputs.
    pose proof (run_history inputs Server.initial) as Hrun.
    destruct (Server.run inputs Server.initial) as [st out]. simpl in Hrun.
    destruct (fold_append_history Server.MAX_HISTORY (Server.broadcast_events out) [])
      as [Hlen Heq]; [simpl; lia |].
    simpl in Hlen, Heq. rewrite Hrun. split; [exact Hlen | exact Heq].
  - intros cap es.
    destruct (fold_append_history cap es []) as [Hlen Heq]; [simpl; lia |].
    split; [exact Hlen | exact Heq].
  - intros cap h e. apply append_history_full.
  - intros A B C. reflexivity.
Qed.

Lemma history_log_bounded_fifo_witness :
  Server.append_history 2
    [Server.joinEvent "s1" "alice" "10:00 AM"; Server.messageEvent "s1" "alice" "hi" "10:00 AM"]
    (Server.leftEvent "s1" "alice" "10:01 AM" 0)
  = [Server.messageEvent "s1" "alice" "hi" "10:00 AM"; Server.leftEvent "s1" "alice" "10:01 AM" 0].
Proof.
  apply (proj1 (proj2 (proj2 history_log_bounded_fifo)) 2%nat); [reflexivity | lia].
Defined.

(** ** JavaScript strings: truthiness and trimming *)

Section Strings.

Lemma truthy_true (s : string) : JS.truthy s = true <-> s <> "".
Proof. destruct s; simpl; split; congruence. Qed.

Lemma truthy_false (s : string) : JS.truthy s = false <-> s = "".
Proof. destruct s; simpl; split; congruence. Qed.

Lemma trimStart_blank (s : string) : JS.trimStart s = "" <-> JS.blank s = true.
Proof.
  induction s as [| c s IH]; simpl.
  - split; reflexivity.
  - destruct (JS.is_white_space c); simpl; [exact IH | split; discriminate].
Qed.

Lemma trimEnd_blank (s : string) : JS.trimEnd s = "" <-> JS.blank s = true.
Proof.
  induction s as [| c s IH]; simpl.
  - split; reflexivity.
  - destruct (JS.trimEnd s) as [| k ks] eqn:Hend.
    + destruct (JS.is_white_space c); simpl.
      * split; intros _; [apply IH |]; reflexivity.
      * split; discriminate.
    + split; [discriminate |].
      intros Hb. apply andb_true_iff in Hb as [_ Hb].
      apply IH in Hb. discriminate.
Qed.

Lemma blank_trimStart (s : string) :
  JS.blank (JS.trimStart s) = JS.blank s.
Proof.
  induction s as [| c s IH]; simpl; [reflexivity |].
  destruct (JS.is_white_space c) eqn:Hc; simpl; [exact IH |].
  rewrite Hc. reflexivity.
Qed.

(** [s.trim()] is empty exactly when [s] is empty or white space only. *)
Lemma trim_empty_iff (s : string) : JS.trim s = "" <-> JS.blank s = true.
Proof.
  unfold JS.trim. rewrite trimEnd_blank, blank_trimStart. reflexivity.
Qed.

End Strings.

(** ** The session registry *)

Section Registry.

Implicit Types (m : gmap string string) (id name : string).

(** [Array.from(users.values()).includes(name)]: some connection holds
    [name]. *)
Lemma values_include_true m name :
  Server.values_include m name = true <-> exists id, m !! id = Some name.
Proof.
  unfold Server.values_include. rewrite bool_decide_eq_true, list_elem_of_fmap.
  split.
  - intros [[id v] [Hv Hin]]. simpl in Hv. subst v.
    exists id. apply elem_of_map_to_list. exact Hin.
  - intros [id Hid]. exists (id, name). split; [reflexivity |].
    apply elem_of_map_to_list. exact Hid.
Qed.

Lemma values_include_false m name :
  Server.values_include m name = false <-> forall id, m !! id <> Some name.
Proof.
  rewrite <- not_true_iff_false, values_include_true. split.
  - intros Hno id Hid. apply Hno. exists id. exact Hid.
  - intros Hall [id Hid]. exact (Hall id Hid).
Qed.

Lemma state_eta (st : Server.state) :
  Server.State (Server.users st) (Server.messageHistory st) = st.
Proof. destruct st; reflexivity. Qed.

(** One [push] and at most one [shift]: the new log is the old one with the
    event at its tail, less at most one event at its head. *)
Lemma append_history_one cap (h : list Wire.event) (e : Wire.event) :
  cap <> 0%nat ->
  exists evicted,
    h ++ [e] = evicted ++ Server.append_history cap h e
    /\ (length evicted <= 1)%nat
    /\ last (Server.append_history cap h e) = Some e.
Proof.
  intros Hcap. rewrite append_history_cases.
  destruct (Nat.ltb_spec cap (S (length h))) as [Hlt | Hge].
  - destruct h as [| x h']; [simpl in Hlt; lia |].
    exists [x]. simpl. split; [reflexivity |]. split; [lia | apply last_snoc].
  - exists []. simpl. split; [reflexivity |]. split; [lia | apply last_snoc].
Qed.

End Registry.

(** ** Announcing a name *)

(** C3.  When no connection holds [name], the [user_join] handler sets the
    entry of the announcing socket to [name] and leaves the other entries,
    pushes one event on the history -- the join event of this socket, name
    and time, with the text "<name> joined the chat" -- evicting at most the
    oldest event, and broadcasts that event as [user_joined], and nothing
    else. *)
Theorem first_announce_is_joined (st : Server.state) (id name now : string) :
  (forall other, Server.users st !! other <> Some name) ->
  let e := Wire.Event id name (name +:+ " joined the chat") now None in
  let '(st', out) := Server.on_user_join id name now st in
  Server.users st' !! id = Some name
  /\ (forall other, other <> id -> Server.users st' !! other = Server.users st !! other)
  /\ Server.messageHistory st'
     = Server.append_history Server.MAX_HISTORY (Server.messageHistory st) e
  /\ (exists evicted,
        Server.messageHistory st ++ [e] = evicted ++ Server.messageHistory st'
        /\ (length evicted <= 1)%nat
        /\ last (Server.messageHistory st') = Some e)
  /\ out = [Server.io_emit_user_joined e].
Proof.
  intros Hfree e. apply values_include_false in Hfree.
  unfold Server.on_user_join. rewrite Hfree. simpl.
  split; [apply lookup_insert_eq |].
  split; [intros other Hne; apply lookup_insert_ne; congruence |].
  split; [reflexivity |].
  split; [| reflexivity].
  apply append_history_one. unfold Server.MAX_HISTORY. lia.
Qed.

Lemma first_announce_is_joined_witness :
  exists st' out,
    Server.on_user_join "s1" "alice" "10:00 AM" Server.initial = (st', out)
    /\ Server.users st' !! "s1" = Some "alice"
    /\ last (Server.messageHistory st')
       = Some (Wire.Event "s1" "alice" "alice joined the chat" "10:00 AM" None)
    /\ out = [Server.io_emit_user_joined
                (Wire.Event "s1" "alice" "alice joined the chat" "10:00 AM" None)].
Proof.
  assert (Hfree : forall other, Server.users Server.initial !! other <> Some "alice").
  { intros other. simpl. rewrite lookup_empty. discriminate. }
  pose proof (first_announce_is_joined Server.initial "s1" "alice" "10:00 AM" Hfree) as H.
  destruct (Server.on_user_join "s1" "alice" "10:00 AM" Server.initial) as [st' out].
  exists st', out. simpl in H.
  destruct H as (Hid & _ & _ & (evicted & _ & _ & Hlast) & Hout).
  split; [reflexivity |]. split; [exact Hid |]. split; [exact Hlast | exact Hout].
Defined.

(** C4.  When some connection holds [name], the [user_join] handler sets the
    entry of the announcing socket to [name] and leaves the other entries,
    broadcasts [user_reconnected] with the socket id and the name, and
    leaves the history as it was. *)
Theorem announce_of_held_name_is_reconnected
    (st : Server.state) (id name now : string) :
  (exists other, Server.users st !! other = Some name) ->
  let '(st', out) := Server.on_user_join id name now st in
  Server.users st' !! id = Some name
  /\ (forall other, other <> id -> Server.users st' !! other = Server.users st !! other)
  /\ Server.messageHistory st' = Server.messageHistory st
  /\ out = [Server.io_emit_user_reconnected id name].
Proof.
  intros Hheld. apply values_include_true in Hheld.
  unfold Server.on_user_join. rewrite Hheld. simpl.
  split; [apply lookup_insert_eq |].
  split; [intros other Hne; apply lookup_insert_ne; congruence |].
  split; reflexivity.
Qed.

Lemma announce_of_held_name_is_reconnected_witness :
  let st := (Server.on_user_join "s1" "alice" "10:00 AM" Server.initial).1 in
  exists st' out,
    Server.on_user_join "s2" "alice" "10:05 AM" st = (st', out)
    /\ Server.users st' !! "s2" = Some "alice"
    /\ Server.users st' !! "s1" = Some "alice"
    /\ Server.messageHistory st' = Server.messageHistory st
    /\ out = [Server.io_emit_user_reconnected "s2" "alice"].
Proof.
  intros st.
  assert (Hheld : exists other, Server.users st !! other = Some "alice").
  { exists "s1". vm_compute. reflexivity. }
  pose proof (announce_of_held_name_is_reconnected st "s2" "alice" "10:05 AM" Hheld) as H.
  destruct (Server.on_user_join "s2" "alice" "10:05 AM" st) as [st' out].
  exists st', out.
  destruct H as (Hid & Hother & Hhist & Hout).
  split; [reflexivity |]. split; [exact Hid |].
  split; [rewrite Hother by discriminate; vm_compute; reflexivity |].
  split; [exact Hhist | exact Hout].
Defined.

(** ** Blank names *)

(** The client turns down a name that is empty once trimmed: [joinChat]
    then changes no ref and sends nothing, and so does the reconnect branch
    of [toggleConnection]. *)
Lemma blank_name_stops_at_the_client :
  (forall st, JS.trim (Client.userName st) = "" -> Client.joinChat st = (st, []))
  /\ (forall st,
        JS.trim (Client.userName st) = "" -> Client.isConnected st = false ->
        Client.toggleConnection st = (st, [])).
Proof.
  split.
  - intros st Hblank. unfold Client.joinChat. rewrite Hblank. reflexivity.
  - intros st Hblank Hoff. unfold Client.toggleConnection.
    rewrite Hoff, Hblank. reflexivity.
Qed.

Lemma blank_name_stops_at_the_client_witness :
  let st := Client.set_userName "  " Client.initial in
  Client.joinChat st = (st, []) /\ Client.toggleConnection st = (st, []).
Proof.
  intros st. split.
  - apply (proj1 blank_name_stops_at_the_client st). vm_compute. reflexivity.
  - apply (proj2 blank_name_stops_at_the_client st); vm_compute; reflexivity.
Defined.

(** C2 fails on the code: the server's [user_join] handler does not test
    the name, although the client's [joinChat] and [toggleConnection] do and
    the server's own [send_message] and [disconnect] take the empty name for
    no name.  The empty string, and a name of two spaces, announced to the
    fresh server are registered, their join event is pushed on the history
    and broadcast to everyone; the socket registered under the empty string
    can then neither post nor leave.  The component itself sends the empty
    string when [leaveChat] runs before a join timer fires. *)
Theorem server_registers_blank_names :
  let joined := Wire.Event "s1" "" " joined the chat" "10:00 AM" None in
  let spaces := Wire.Event "s1" "  " "   joined the chat" "10:00 AM" None in
  JS.trim "" = "" /\ JS.trim "  " = ""
  /\ Server.on_user_join "s1" "" "10:00 AM" Server.initial
     = (Server.State {["s1" := ""]} [joined], [Server.io_emit_user_joined joined])
  /\ Server.on_user_join "s1" "  " "10:00 AM" Server.initial
     = (Server.State {["s1" := "  "]} [spaces], [Server.io_emit_user_joined spaces])
  /\ Server.on_send_message "s1" "hello" "10:01 AM" (Server.State {["s1" := ""]} [joined])
     = (Server.State {["s1" := ""]} [joined], [])
  /\ Server.on_disconnect "s1" "10:02 AM" (Server.State {["s1" := ""]} [joined])
     = (Server.State ∅ [joined], [])
  /\ (Session.perform_all
        [Client.click_leaveChat; Client.timer_fires Client.join_after_prompt]
        Client.initial).2
     = [Client.socket_disconnect; Client.socket_emit_user_join ""].
Proof.
  intros joined spaces. subst joined spaces.
  repeat (split; [vm_compute; reflexivity |]). vm_compute. reflexivity.
Qed.

(** ** Disconnecting *)

(** C5, as the claim states it, fails for a registered name that is the
    empty string: the server registers it on [user_join], and on
    [disconnect] it removes the entry without any event. *)
Lemma disconnect_of_empty_name_is_silent :
  let st := (Server.run [Server.connection "s1"; Server.user_join "s1" "" "10:00 AM"]
               Server.initial).1 in
  Server.users st !! "s1" = Some ""
  /\ Server.on_disconnect "s1" "10:05 AM" st
     = (Server.State ∅ (Server.messageHistory st), []).
Proof. split; vm_compute; reflexivity. Qed.

(** C5, amended.  On [disconnect] of a socket whose entry holds a non-empty
    name, that entry is removed and the others stay, one event is pushed on
    the history -- the leave event of this socket, name and time, with the
    text "<name> left the chat" and the number of entries that remain --
    evicting at most the oldest event, and that event is broadcast as
    [user_left], and nothing else.  On [disconnect] of a socket without
    entry, the state does not change and nothing is sent. *)
Theorem disconnect_of_named_and_unnamed (st : Server.state) (id now : string) :
  (forall name,
     Server.users st !! id = Some name -> name <> "" ->
     let '(st', out) := Server.on_disconnect id now st in
     let e := Wire.Event id name (name +:+ " left the chat") now
                (Some (size (Server.users st'))) in
     Server.users st' !! id = None
     /\ (forall other, other <> id -> Server.users st' !! other = Server.users st !! other)
     /\ Server.messageHistory st'
        = Server.append_history Server.MAX_HISTORY (Server.messageHistory st) e
     /\ (exists evicted,
           Server.messageHistory st ++ [e] = evicted ++ Server.messageHistory st'
           /\ (length evicted <= 1)%nat
           /\ last (Server.messageHistory st') = Some e)
     /\ out = [Server.io_emit_user_left e])
  /\ (Server.users st !! id = None -> Server.on_disconnect id now st = (st, [])).
Proof.
  split.
  - intros name Hid Hname. apply truthy_true in Hname.
    unfold Server.on_disconnect. rewrite Hid, Hname. simpl.
    split; [apply lookup_delete_eq |].
    split; [intros other Hne; apply lookup_delete_ne; congruence |].
    split; [reflexivity |].
    split; [| reflexivity].
    apply append_history_one. unfold Server.MAX_HISTORY. lia.
  - intros Hnone. unfold Server.on_disconnect. rewrite Hnone.
    rewrite delete_id by exact Hnone. rewrite state_eta. reflexivity.
Qed.

Lemma disconnect_of_named_and_unnamed_witness :
  let st := (Server.on_user_join "s1" "alice" "10:00 AM" Server.initial).1 in
  (exists st' out,
     Server.on_disconnect "s1" "10:05 AM" st = (st', out)
     /\ Server.users st' !! "s1" = None
     /\ out = [Server.io_emit_user_left
                 (Wire.Event "s1" "alice" "alice left the chat" "10:05 AM"
                    (Some (size (Server.users st'))))]
     /\ last (Server.messageHistory st')
        = Some (Wire.Event "s1" "alice" "alice left the chat" "10:05 AM"
                  (Some (size (Server.users st')))))
  /\ Server.on_disconnect "s2" "10:05 AM" st = (st, []).
Proof.
  intros st. split.
  - assert (Hid : Server.users st !! "s1" = Some "alice") by (vm_compute; reflexivity).
    assert (Hname : "alice" <> "") by discriminate.
    pose proof (proj1 (disconnect_of_named_and_unnamed st "s1" "10:05 AM")
                  "alice" Hid Hname) as H.
    destruct (Server.on_disconnect "s1" "10:05 AM" st) as [st' out].
    exists st', out. simpl in H.
    destruct H as (Hgone & _ & _ & (evicted & _ & _ & Hlast) & Hout).
    split; [reflexivity |]. split; [exact Hgone |]. split; [exact Hout | exact Hlast].
  - apply (proj2 (disconnect_of_named_and_unnamed st "s2" "10:05 AM")).
    vm_compute. reflexivity.
Defined.

(** ** Chat messages *)

(** C6, as the claim states it, fails for a socket registered under the
    empty string: its message is dropped like that of an unknown socket. *)
Lemma message_of_empty_name_is_dropped :
  let st := (Server.run [Server.connection "s1"; Server.user_join "s1" "" "10:00 AM"]
               Server.initial).1 in
  Server.users st !! "s1" = Some ""
  /\ Server.on_send_message "s1" "hello" "10:01 AM" st = (st, []).
Proof. split; vm_compute; reflexivity. Qed.

(** C6, amended.  A [send_message] from a socket without entry changes
    nothing and sends nothing.  From a socket whose entry holds a non-empty
    name, the registry stays as it is, one event is pushed on the history
    -- the socket id, the name found in the registry, the body as it came
    and the time -- evicting at most the oldest event, and that event is
    broadcast as [receive_message], and nothing else. *)
Theorem message_of_unnamed_and_named (st : Server.state) (id body now : string) :
  (Server.users st !! id = None -> Server.on_send_message id body now st = (st, []))
  /\ (forall name,
        Server.users st !! id = Some name -> name <> "" ->
        let e := Wire.Event id name body now None in
        let '(st', out) := Server.on_send_message id body now st in
        Server.users st' = Server.users st
        /\ Server.messageHistory st'
           = Server.append_history Server.MAX_HISTORY (Server.messageHistory st) e
        /\ (exists evicted,
              Server.messageHistory st ++ [e] = evicted ++ Server.messageHistory st'
              /\ (length evicted <= 1)%nat
              /\ last (Server.messageHistory st') = Some e)
        /\ out = [Server.io_emit_receive_message e]).
Proof.
  split.
  - intros Hnone. unfold Server.on_send_message. rewrite Hnone. reflexivity.
  - intros name Hid Hname e. apply truthy_true in Hname.
    unfold Server.on_send_message. rewrite Hid, Hname. simpl.
    split; [reflexivity |]. split; [reflexivity |]. split; [| reflexivity].
    apply append_history_one. unfold Server.MAX_HISTORY. lia.
Qed.

Lemma message_of_unnamed_and_named_witness :
  let st := (Server.on_user_join "s1" "alice" "10:00 AM" Server.initial).1 in
  Server.on_send_message "s2" "hello" "10:01 AM" st = (st, [])
  /\ exists st' out,
       Server.on_send_message "s1" "hello" "10:01 AM" st = (st', out)
       /\ Server.users st' = Server.users st
       /\ last (Server.messageHistory st')
          = Some (Wire.Event "s1" "alice" "hello" "10:01 AM" None)
       /\ out = [Server.io_emit_receive_message
                   (Wire.Event "s1" "alice" "hello" "10:01 AM" None)].
Proof.
  intros st. split.
  - apply (proj1 (message_of_unnamed_and_named st "s2" "hello" "10:01 AM")).
    vm_compute. reflexivity.
  - assert (Hid : Server.users st !! "s1" = Some "alice") by (vm_compute; reflexivity).
    assert (Hname : "alice" <> "") by discriminate.
    pose proof (proj2 (message_of_unnamed_and_named st "s1" "hello" "10:01 AM")
                  "alice" Hid Hname) as H.
    destruct (Server.on_send_message "s1" "hello" "10:01 AM" st) as [st' out].
    exists st', out. simpl in H.
    destruct H as (Husers & _ & (evicted & _ & _ & Hlast) & Hout).
    split; [reflexivity |]. split; [exact Husers |]. split; [exact Hlast | exact Hout].
Defined.

(** ** Replaying a snapshot on the client *)

Section Replay.

(** The history of a server on which alice joins, says "hi" and leaves, and
    bob joins, whatever the socket ids and the times. *)
Lemma server_alice_bob_history (a b t1 t2 t3 t4 : string) :
  Server.messageHistory
    (Server.run
       [Server.connection a; Server.user_join a "alice" t1;
        Server.send_message a "hi" t2; Server.disconnect a t3;
        Server.connection b; Server.user_join b "bob" t4] Server.initial).1
  = [Server.joinEvent a "alice" t1; Server.messageEvent a "alice" "hi" t2;
     Server.leftEvent a "alice" t3 0; Server.joinEvent b "bob" t4].
Proof.
  rewrite !run_cons. simpl.
  assert (H1 : (Server.on_user_join a "alice" t1 Server.initial).1
               = Server.State (<[a := "alice"]> ∅) [Server.joinEvent a "alice" t1])
    by reflexivity.
  change (Server.State ∅ []) with Server.initial. rewrite H1.
  assert (H2 : (Server.on_send_message a "hi" t2
                  (Server.State (<[a := "alice"]> ∅) [Server.joinEvent a "alice" t1])).1
               = Server.State (<[a := "alice"]> ∅)
                   [Server.joinEvent a "alice" t1; Server.messageEvent a "alice" "hi" t2]).
  { unfold Server.on_send_message. simpl. rewrite lookup_insert_eq. reflexivity. }
  rewrite H2.
  assert (H3 : (Server.on_disconnect a t3
                  (Server.State (<[a := "alice"]> ∅)
                     [Server.joinEvent a "alice" t1;
                      Server.messageEvent a "alice" "hi" t2])).1
               = Server.State ∅
                   [Server.joinEvent a "alice" t1; Server.messageEvent a "alice" "hi" t2;
                    Server.leftEvent a "alice" t3 0]).
  { unfold Server.on_disconnect. simpl. rewrite lookup_insert_eq. simpl.
    rewrite delete_insert_id by apply lookup_empty. reflexivity. }
  rewrite H3. reflexivity.
Qed.

End Replay.

(** ** What the replay makes of the server's own events *)

Section ReplayByText.

Lemma includes_app_r (needle p s : string) :
  JS.includes needle s = true -> JS.includes needle (p +:+ s) = true.
Proof.
  intros Hs. induction p as [| c p IH]; simpl; [exact Hs |].
  rewrite IH. apply orb_true_r.
Qed.

(** A needle without the character [c] cannot end inside a text that
    starts with [c]. *)
Lemma prefix_app_other (c : ascii) (s : string) (needle : string) :
  JS.occurs c needle = false -> forall w,
  String.prefix needle (w +:+ String c s) = String.prefix needle w.
Proof.
  induction needle as [| a needle IH]; intros Hc w.
  - destruct w; reflexivity.
  - simpl in Hc. apply orb_false_iff in Hc as [Hca Hc].
    destruct w as [| b w]; simpl.
    + destruct (ascii_dec a c) as [-> | Hne]; [| reflexivity].
      rewrite Ascii.eqb_refl in Hca. discriminate.
    + destruct (ascii_dec a b); [apply IH; exact Hc | reflexivity].
Qed.

Lemma includes_app_other (c : ascii) (s : string) (needle : string) :
  JS.occurs c needle = false -> forall w,
  JS.includes needle (w +:+ String c s)
  = JS.includes needle w || JS.includes needle (String c s).
Proof.
  intros Hc w. induction w as [| b w IH].
  - simpl ("" +:+ _). destruct needle; [reflexivity |].
    replace (JS.includes (String a needle) "") with false by reflexivity.
    reflexivity.
  - change (String b w +:+ String c s) with (String b (w +:+ String c s)).
    cbn [JS.includes].
    rewrite IH.
    change (String b (w +:+ String c s)) with (String b w +:+ String c s).
    rewrite (prefix_app_other c s needle Hc (String b w)).
    rewrite orb_assoc. reflexivity.
Qed.

Lemma join_text_includes_joined (name : string) :
  JS.includes "joined" (name +:+ " joined the chat") = true.
Proof. apply includes_app_r. reflexivity. Qed.

Lemma left_text_includes_left (name : string) :
  JS.includes "left" (name +:+ " left the chat") = true.
Proof. apply includes_app_r. reflexivity. Qed.

Lemma left_text_includes_joined (name : string) :
  JS.includes "joined" (name +:+ " left the chat") = JS.includes "joined" name.
Proof.
  rewrite (includes_app_other " " "left the chat" "joined" eq_refl name).
  replace (JS.includes "joined" " left the chat") with false by reflexivity.
  apply orb_false_r.
Qed.

Lemma text_truthy (name suffix : string) :
  JS.truthy suffix = true -> JS.truthy (name +:+ suffix) = true.
Proof. destruct name; simpl; [trivial | reflexivity]. Qed.

End ReplayByText.

(** The [load_history] listener on the events the server writes.  A join
    event is a system entry and sets the name to the socket id in
    [userJoins].  A leave event is a system entry, and takes the name out of
    [userJoins] when the name does not contain "joined".  An event whose
    text contains neither "joined" nor "left" is a chat entry, own when its
    name is the local one, and leaves [userJoins] as it is. *)
Theorem load_history_on_server_events (localName : string) :
  (forall id name now,
     Client.to_entry localName (Server.joinEvent id name now)
     = Client.system (name +:+ " joined the chat") now
     /\ forall userJoins userLefts,
          Client.scan_history (userJoins, userLefts) (Server.joinEvent id name now)
          = (JSObject.set name id userJoins, userLefts ∖ {[name]}))
  /\ (forall id name now total,
        Client.to_entry localName (Server.leftEvent id name now total)
        = Client.system (name +:+ " left the chat") now
        /\ (JS.includes "joined" name = false ->
            forall userJoins userLefts,
              Client.scan_history (userJoins, userLefts)
                (Server.leftEvent id name now total)
              = (JSObject.delete name userJoins, {[name]} ∪ userLefts)))
  /\ (forall msg,
        JS.includes "joined" (Wire.message msg) = false ->
        JS.includes "left" (Wire.message msg) = false ->
        Client.to_entry localName msg
        = Client.chat (Wire.userId msg) (Wire.userName msg) (Wire.message msg)
            (Wire.timestamp msg) (String.eqb (Wire.userName msg) localName)
        /\ forall acc, Client.scan_history acc msg = acc).
Proof.
  split; [| split].
  - intros id name now.
    unfold Client.to_entry, Client.scan_history, Server.joinEvent. simpl.
    rewrite join_text_includes_joined, text_truthy by reflexivity.
    split; reflexivity.
  - intros id name now total.
    unfold Client.to_entry, Client.scan_history, Server.leftEvent. simpl.
    rewrite left_text_includes_left, left_text_includes_joined,
      text_truthy by reflexivity.
    split.
    + rewrite orb_true_r. reflexivity.
    + intros Hname userJoins userLefts. rewrite Hname. reflexivity.
  - intros msg Hjoined Hleft.
    unfold Client.to_entry, Client.scan_history.
    rewrite Hjoined, Hleft, !andb_false_r.
    split; [reflexivity | intros [userJoins userLefts]; reflexivity].
Qed.

Lemma load_history_on_server_events_witness :
  Client.scan_history ([("alice", "s1")], ∅)
    (Server.leftEvent "s1" "alice" "10:02 AM" 0)
  = ([], {["alice"]} ∪ ∅)
  /\ Client.to_entry "bob" (Server.messageEvent "s1" "alice" "hi" "10:01 AM")
     = Client.chat "s1" "alice" "hi" "10:01 AM" false.
Proof.
  split.
  - apply (proj2 (proj1 (proj2 (load_history_on_server_events "bob"))
                    "s1" "alice" "10:02 AM" 0%nat)).
    reflexivity.
  - apply (proj1 (proj2 (proj2 (load_history_on_server_events "bob"))
                    (Server.messageEvent "s1" "alice" "hi" "10:01 AM")
                    eq_refl eq_refl)).
Defined.

(** C7 fails on the code: the [load_history] listener tells the events apart
    by the words "joined" and "left" in their text.  On the history of a
    server where alice joins and then says "I left my keys", it takes the
    chat message for a leave: alice is not among the users, and her message
    is a system entry, not a chat entry. *)
Theorem load_history_reads_the_text :
  let history :=
    Server.messageHistory
      (Server.run
         [Server.connection "s1"; Server.user_join "s1" "alice" "10:00 AM";
          Server.send_message "s1" "I left my keys" "10:01 AM"] Server.initial).1 in
  let st' := Client.on_load_history history (Client.set_userName "bob" Client.initial) in
  history = [Wire.Event "s1" "alice" "alice joined the chat" "10:00 AM" None;
             Wire.Event "s1" "alice" "I left my keys" "10:01 AM" None]
  /\ Client.users st' = []
  /\ Client.messages st'
     = [Client.system "alice joined the chat" "10:00 AM";
        Client.system "I left my keys" "10:01 AM"].
Proof.
  split; [vm_compute; reflexivity |].
  split; vm_compute; reflexivity.
Qed.

(** C8, as the claim states it, fails: the timeline of that snapshot has
    four entries, the leave of alice among them, and not three. *)
Lemma replay_alice_bob_has_four_entries :
  let history :=
    [Wire.Event "s1" "alice" "alice joined the chat" "10:00 AM" None;
     Wire.Event "s1" "alice" "hi" "10:01 AM" None;
     Wire.Event "s1" "alice" "alice left the chat" "10:02 AM" (Some 0%nat);
     Wire.Event "s2" "bob" "bob joined the chat" "10:03 AM" None] in
  let st' := Client.on_load_history history Client.initial in
  Client.users st' = [Client.User "s2" "bob"]
  /\ length (Client.messages st') = 4%nat
  /\ length (Client.messages st') <> 3%nat.
Proof.
  split; [vm_compute; reflexivity |].
  split; [vm_compute; reflexivity | vm_compute; discriminate].
Qed.

(** C8, amended.  Replaying the history of a server on which alice joined,
    said "hi" and left, and bob joined -- the snapshot [Joined(alice);
    Message(alice, "hi"); Left(alice); Joined(bob)] -- gives the users
    [bob] alone, under the socket id of his join, and a timeline of four
    entries: system (join of alice), chat ("hi", own when the local name is
    alice), system (leave of alice), system (join of bob). *)
Theorem replay_alice_bob (a b t1 t2 t3 t4 : string) (st : Client.state) :
  let history :=
    Server.messageHistory
      (Server.run
         [Server.connection a; Server.user_join a "alice" t1;
          Server.send_message a "hi" t2; Server.disconnect a t3;
          Server.connection b; Server.user_join b "bob" t4] Server.initial).1 in
  let st' := Client.on_load_history history st in
  history = [Wire.Event a "alice" "alice joined the chat" t1 None;
             Wire.Event a "alice" "hi" t2 None;
             Wire.Event a "alice" "alice left the chat" t3 (Some 0%nat);
             Wire.Event b "bob" "bob joined the chat" t4 None]
  /\ Client.users st' = [Client.User b "bob"]
  /\ Client.messages st'
     = [Client.system "alice joined the chat" t1;
        Client.chat a "alice" "hi" t2 (String.eqb "alice" (Client.userName st));
        Client.system "alice left the chat" t3;
        Client.system "bob joined the chat" t4]
  /\ length (Client.messages st') = 4%nat.
Proof.
  intros history st'. subst st' history.
  rewrite server_alice_bob_history.
  split; [reflexivity |]. split; [vm_compute; reflexivity |].
  split; reflexivity.
Qed.

(** ** The time separator *)

Section Separator.

Lemma item_nonneg {A : Type} (l : list A) (index : Z) (x : A) :
  Client.item l index = Some x -> (0 <= index)%Z.
Proof.
  unfold Client.item. destruct (Z.ltb_spec index 0); [discriminate | lia].
Qed.

(** An entry not at the head of the array has an entry before it. *)
Lemma item_pred {A : Type} (l : list A) (index : Z) (x : A) :
  Client.item l index = Some x -> (0 < index)%Z ->
  exists y, Client.item l (index - 1) = Some y.
Proof.
  unfold Client.item. intros Hx Hpos.
  destruct (Z.ltb_spec index 0); [discriminate |].
  destruct (Z.ltb_spec (index - 1) 0); [lia |].
  apply lookup_lt_Some in Hx.
  apply lookup_lt_is_Some_2. lia.
Qed.

End Separator.

(** C9.  For every timeline and every index of an entry of it, the separator
    is shown before the entry exactly when the index is above 0 and the
    time label of the entry differs from that of the entry before it.  So no
    separator is shown before the first entry, nor between two consecutive
    entries with the same label. *)
Theorem time_separator_rule (st : Client.state) :
  (forall index currentMsg,
     Client.item (Client.messages st) index = Some currentMsg ->
     Client.shouldShowTimeSeparator index st = true
     <-> (0 < index)%Z
         /\ exists prevMsg,
              Client.item (Client.messages st) (index - 1) = Some prevMsg
              /\ Client.entry_timestamp currentMsg <> Client.entry_timestamp prevMsg)
  /\ Client.shouldShowTimeSeparator 0 st = false
  /\ (forall index prevMsg currentMsg,
        Client.item (Client.messages st) (index - 1) = Some prevMsg ->
        Client.item (Client.messages st) index = Some currentMsg ->
        Client.entry_timestamp currentMsg = Client.entry_timestamp prevMsg ->
        Client.shouldShowTimeSeparator index st = false).
Proof.
  split; [| split].
  - intros index currentMsg Hcur. unfold Client.shouldShowTimeSeparator.
    pose proof (item_nonneg _ _ _ Hcur) as Hge.
    destruct (Z.eqb_spec index 0) as [-> | Hne].
    + split; [discriminate | intros [Hpos _]; lia].
    + rewrite Hcur.
      destruct (item_pred _ _ _ Hcur ltac:(lia)) as [prevMsg Hprev].
      rewrite Hprev. rewrite negb_true_iff, String.eqb_neq. split.
      * intros Hdiff. split; [lia |]. exists prevMsg. split; [reflexivity | exact Hdiff].
      * intros [_ (p & Hp & Hdiff)]. congruence.
  - reflexivity.
  - intros index prevMsg currentMsg Hprev Hcur Hsame.
    unfold Client.shouldShowTimeSeparator.
    destruct (index =? 0)%Z; [reflexivity |].
    rewrite Hcur, Hprev, Hsame, String.eqb_refl. reflexivity.
Qed.

Lemma time_separator_rule_witness :
  let st := Client.set_messages
              [Client.system "alice joined the chat" "10:00 AM";
               Client.chat "s1" "alice" "hi" "10:00 AM" false;
               Client.chat "s1" "alice" "bye" "10:01 AM" false] Client.initial in
  Client.shouldShowTimeSeparator 1 st = false
  /\ Client.shouldShowTimeSeparator 2 st = true.
Proof.
  intros st. split.
  - apply (proj2 (proj2 (time_separator_rule st)) 1%Z
             (Client.system "alice joined the chat" "10:00 AM")
             (Client.chat "s1" "alice" "hi" "10:00 AM" false)); reflexivity.
  - apply (proj1 (time_separator_rule st) 2%Z
             (Client.chat "s1" "alice" "bye" "10:01 AM" false)); [reflexivity |].
    split; [lia |].
    exists (Client.chat "s1" "alice" "hi" "10:00 AM" false).
    split; [reflexivity | simpl; discriminate].
Defined.

(** ** Losing the connection and leaving *)

Section Leave.

Lemma app_prefix_of {A : Type} (l k : list A) : l `prefix_of` l ++ k.
Proof. exists k. reflexivity. Qed.

End Leave.

(** C10, as the claim states it, fails: [leaveChat] is not the only thing
    that empties the messages and the users.  A [load_history] with an empty
    snapshot, which the server sends on every connection while its history is
    empty, empties both. *)
Lemma load_history_of_nothing_empties_the_view :
  let st := Client.State "alice" ""
              [Client.system "alice joined the chat" "10:00 AM"]
              [Client.User "s1" "alice"] true false false false in
  let st' := (Client.perform (Client.socket_load_history []) st).1 in
  Client.socket_load_history [] <> Client.click_leaveChat
  /\ Client.messages st <> [] /\ Client.users st <> []
  /\ Client.messages st' = [] /\ Client.users st' = [].
Proof.
  intros st st'.
  split; [discriminate |]. split; [discriminate |]. split; [discriminate |].
  split; reflexivity.
Qed.

(** C10, amended.  The [disconnect] listener of the client sets
    [isConnected] to false and changes no other ref: the users, the messages
    and the name stay.  [leaveChat] empties the messages and the users,
    erases the name, and goes back to the login screen.  Of all that can run
    -- buttons, timers, socket events -- [leaveChat] apart: the name changes
    only by typing in the name input of the login screen; an entry goes off
    the timeline only when a [load_history] snapshot replaces it; a user goes
    off the list only when a [load_history] snapshot replaces it or a
    [user_reconnected] or [user_left] event removes the user.  Everything
    else keeps the messages and the users or adds to their end. *)
Theorem transport_disconnect_keeps_the_view :
  (forall st,
     let st' := Client.on_disconnect st in
     Client.isConnected st' = false
     /\ Client.users st' = Client.users st
     /\ Client.messages st' = Client.messages st
     /\ Client.userName st' = Client.userName st
     /\ Client.messageInput st' = Client.messageInput st
     /\ Client.loginPhase st' = Client.loginPhase st
     /\ Client.showConnectionModal st' = Client.showConnectionModal st
     /\ Client.showInitialConnectPrompt st' = Client.showInitialConnectPrompt st)
  /\ (forall st,
        let st' := (Client.leaveChat st).1 in
        Client.messages st' = [] /\ Client.users st' = []
        /\ Client.userName st' = "" /\ Client.isConnected st' = false
        /\ Client.loginPhase st' = true)
  /\ (forall op st,
        Client.userName (Client.perform op st).1 <> Client.userName st ->
        op = Client.click_leaveChat
        \/ exists text, op = Client.type_userName text /\ Client.loginPhase st = true)
  /\ (forall op st,
        op = Client.click_leaveChat
        \/ (exists history, op = Client.socket_load_history history)
        \/ Client.messages st `prefix_of` Client.messages (Client.perform op st).1)
  /\ (forall op st,
        op = Client.click_leaveChat
        \/ (exists history, op = Client.socket_load_history history)
        \/ (exists i n, op = Client.socket_user_reconnected i n)
        \/ (exists data, op = Client.socket_user_left data)
        \/ Client.users st `prefix_of` Client.users (Client.perform op st).1).
Proof.
  split; [| split; [| split; [| split]]].
  - intros st. simpl. repeat (split; [reflexivity |]). reflexivity.
  - intros st. simpl. repeat (split; [reflexivity |]). reflexivity.
  - intros op st Hchanged.
    destruct op; simpl in Hchanged;
      try (exfalso; apply Hchanged; reflexivity).
    + destruct (Client.loginPhase st) eqn:Hlogin.
      * right. exists text. split; reflexivity.
      * exfalso. apply Hchanged. reflexivity.
    + destruct (Client.loginPhase st); exfalso; apply Hchanged; reflexivity.
    + unfold Client.joinChat in Hchanged.
      destruct (JS.truthy (JS.trim (Client.userName st)));
        exfalso; apply Hchanged; reflexivity.
    + unfold Client.sendMessage in Hchanged.
      destruct (JS.truthy (JS.trim (Client.messageInput st)));
        exfalso; apply Hchanged; reflexivity.
    + left. reflexivity.
    + unfold Client.toggleConnection in Hchanged.
      destruct (Client.isConnected st);
        [| destruct (JS.truthy (JS.trim (Client.userName st)))];
        exfalso; apply Hchanged; reflexivity.
    + destruct t; exfalso; apply Hchanged; reflexivity.
  - intros op st.
    destruct op; simpl;
      try (left; reflexivity);
      try (right; left; eexists; reflexivity);
      right; right;
      try apply app_prefix_of;
      try reflexivity.
    + destruct (Client.loginPhase st); reflexivity.
    + destruct (Client.loginPhase st); reflexivity.
    + unfold Client.joinChat.
      destruct (JS.truthy (JS.trim (Client.userName st))); reflexivity.
    + unfold Client.sendMessage.
      destruct (JS.truthy (JS.trim (Client.messageInput st))); reflexivity.
    + unfold Client.toggleConnection.
      destruct (Client.isConnected st);
        [| destruct (JS.truthy (JS.trim (Client.userName st)))]; reflexivity.
    + destruct t; reflexivity.
  - intros op st.
    destruct op; simpl;
      try (left; reflexivity);
      try (right; left; eexists; reflexivity);
      try (right; right; left; do 2 eexists; reflexivity);
      try (right; right; right; left; eexists; reflexivity);
      right; right; right; right;
      try reflexivity.
    + destruct (Client.loginPhase st); reflexivity.
    + destruct (Client.loginPhase st); reflexivity.
    + unfold Client.joinChat.
      destruct (JS.truthy (JS.trim (Client.userName st))); reflexivity.
    + unfold Client.sendMessage.
      destruct (JS.truthy (JS.trim (Client.messageInput st))); reflexivity.
    + unfold Client.toggleConnection.
      destruct (Client.isConnected st);
        [| destruct (JS.truthy (JS.trim (Client.userName st)))]; reflexivity.
    + destruct t; reflexivity.
    + destruct (existsb _ (Client.users st)); simpl;
        [reflexivity | apply app_prefix_of].
Qed.

Lemma transport_disconnect_keeps_the_view_witness :
  let st := Client.State "alice" ""
              [Client.system "alice joined the chat" "10:00 AM"]
              [Client.User "s1" "alice"] true false false false in
  Client.userName (Client.perform Client.socket_disconnected st).1 = "alice"
  /\ Client.messages (Client.perform Client.socket_disconnected st).1
     = [Client.system "alice joined the chat" "10:00 AM"]
  /\ Client.userName (Client.perform Client.click_leaveChat st).1 = "".
Proof.
  intros st. split; [| split].
  - destruct (String.string_dec
                (Client.userName (Client.perform Client.socket_disconnected st).1)
                (Client.userName st)) as [Heq | Hne]; [exact Heq |].
    destruct (proj1 (proj2 (proj2 transport_disconnect_keeps_the_view))
                Client.socket_disconnected st Hne) as [Hop | [text [Hop _]]];
      discriminate Hop.
  - apply (proj1 transport_disconnect_keeps_the_view st).
  - apply (proj1 (proj2 transport_disconnect_keeps_the_view) st).
Defined.

(** * Further properties of the server *)

Section ServerRuns.

Lemma run_app (a b : list Server.input) : forall st,
  Server.run (a ++ b) st
  = ((Server.run b (Server.run a st).1).1,
     (Server.run a st).2 ++ (Server.run b (Server.run a st).1).2).
Proof.
  induction a as [| i a IH]; intros st.
  - simpl. destruct (Server.run b st); reflexivity.
  - change ((i :: a) ++ b) with (i :: (a ++ b)).
    rewrite !run_cons, IH. simpl. rewrite app_assoc. reflexivity.
Qed.

(** What each input does to the registry. *)
Lemma handle_users (i : Server.input) (st : Server.state) :
  Server.users (Server.handle i st).1
  = match i with
    | Server.user_join id name _ => <[id := name]> (Server.users st)
    | Server.disconnect id _ => delete id (Server.users st)
    | _ => Server.users st
    end.
Proof.
  destruct i as [id | id name now | id body now | id | id now]; simpl.
  - reflexivity.
  - unfold Server.on_user_join.
    destruct (Server.values_include (Server.users st) name); reflexivity.
  - unfold Server.on_send_message.
    destruct (Server.users st !! id) as [name |]; [| reflexivity].
    destruct (JS.truthy name); reflexivity.
  - reflexivity.
  - unfold Server.on_disconnect.
    destruct (Server.users st !! id) as [name |]; [| reflexivity].
    destruct (JS.truthy name); reflexivity.
Qed.

Lemma handle_keeps_entry (i : Server.input) (st : Server.state) (id : string) :
  Session.announces id i = false -> Session.closes id i = false ->
  Server.users (Server.handle i st).1 !! id = Server.users st !! id.
Proof.
  intros Hann Hclo. rewrite handle_users.
  destruct i as [id' | id' name now | id' body now | id' | id' now];
    simpl in Hann, Hclo; try reflexivity.
  - apply String.eqb_neq in Hann. apply lookup_insert_ne. exact Hann.
  - apply String.eqb_neq in Hclo. apply lookup_delete_ne. exact Hclo.
Qed.

Lemma handle_keeps_absent (i : Server.input) (st : Server.state) (id : string) :
  Session.announces id i = false ->
  Server.users st !! id = None ->
  Server.users (Server.handle i st).1 !! id = None.
Proof.
  intros Hann Hnone. rewrite handle_users.
  destruct i as [id' | id' name now | id' body now | id' | id' now];
    simpl in Hann; try exact Hnone.
  - apply String.eqb_neq in Hann. rewrite lookup_insert_ne by exact Hann. exact Hnone.
  - rewrite lookup_delete. destruct (decide (id' = id)); [reflexivity | exact Hnone].
Qed.

Lemma run_keeps_entry (post : list Server.input) (id : string) : forall st,
  (forall i, i ∈ post -> Session.announces id i = false /\ Session.closes id i = false) ->
  Server.users (Server.run post st).1 !! id = Server.users st !! id.
Proof.
  induction post as [| i post IH]; intros st Hpost; [reflexivity |].
  rewrite run_cons. simpl. rewrite IH.
  - destruct (Hpost i) as [Hann Hclo]; [left |].
    apply handle_keeps_entry; assumption.
  - intros j Hj. apply Hpost. right. exact Hj.
Qed.

Lemma run_keeps_absent (post : list Server.input) (id : string) : forall st,
  (forall i, i ∈ post -> Session.announces id i = false) ->
  Server.users st !! id = None ->
  Server.users (Server.run post st).1 !! id = None.
Proof.
  induction post as [| i post IH]; intros st Hpost Hnone; [exact Hnone |].
  rewrite run_cons. simpl. apply IH.
  - intros j Hj. apply Hpost. right. exact Hj.
  - apply handle_keeps_absent; [apply Hpost; left | exact Hnone].
Qed.

End ServerRuns.

(** The registry entry of a socket is the name of its latest [user_join]
    since its latest [disconnect].  After a [user_join] of the socket that no
    later input of the same socket overwrites or closes, the entry is the
    announced name; after a [disconnect] that no later [user_join] of the
    socket follows, and on a server where the socket never announced a name,
    there is no entry. *)
Theorem registry_entry_is_latest_announce (id : string) :
  (forall pre post name now st,
     (forall i, i ∈ post ->
        Session.announces id i = false /\ Session.closes id i = false) ->
     Server.users (Server.run (pre ++ Server.user_join id name now :: post) st).1 !! id
     = Some name)
  /\ (forall pre post now st,
        (forall i, i ∈ post -> Session.announces id i = false) ->
        Server.users (Server.run (pre ++ Server.disconnect id now :: post) st).1 !! id
        = None)
  /\ (forall inputs,
        (forall i, i ∈ inputs -> Session.announces id i = false) ->
        Server.users (Server.run inputs Server.initial).1 !! id = None).
Proof.
  split; [| split].
  - intros pre post name now st Hpost.
    rewrite run_app. cbn [fst]. rewrite run_cons. cbn [fst].
    rewrite run_keeps_entry by exact Hpost.
    rewrite handle_users. apply lookup_insert_eq.
  - intros pre post now st Hpost.
    rewrite run_app. cbn [fst]. rewrite run_cons. cbn [fst].
    apply run_keeps_absent; [exact Hpost |].
    rewrite handle_users. apply lookup_delete_eq.
  - intros inputs Hinputs.
    apply run_keeps_absent; [exact Hinputs | apply lookup_empty].
Qed.

Lemma registry_entry_is_latest_announce_witness :
  Server.users
    (Server.run
       ([Server.connection "s1"; Server.user_join "s1" "alice" "10:00 AM"]
        ++ Server.user_join "s1" "alicia" "10:01 AM"
           :: [Server.send_message "s1" "hi" "10:02 AM";
               Server.disconnect "s2" "10:03 AM"]) Server.initial).1 !! "s1"
  = Some "alicia".
Proof.
  apply (proj1 (registry_entry_is_latest_announce "s1")).
  intros i Hi.
  apply list_elem_of_In in Hi. simpl in Hi.
  destruct Hi as [<- | [<- | []]]; split; reflexivity.
Defined.

(** * Further properties of the client *)

(** ** Objects as dictionaries: keys stay distinct *)

Section Dictionary.

Implicit Types (o : JSObject.t) (k v : string) (kv : string * string).

Lemma has_true o k : JSObject.has k o = true <-> k ∈ o.*1.
Proof.
  unfold JSObject.has. rewrite existsb_exists. split.
  - intros [kv [Hin Heq]]. apply String.eqb_eq in Heq. subst k.
    apply list_elem_of_fmap. exists kv. split; [reflexivity |].
    apply list_elem_of_In. exact Hin.
  - intros Hk. apply list_elem_of_fmap in Hk as [kv [-> Hin]].
    exists kv. split; [apply list_elem_of_In; exact Hin | apply String.eqb_refl].
Qed.

Lemma has_false o k : JSObject.has k o = false <-> k ∉ o.*1.
Proof. rewrite <- not_true_iff_false, has_true. reflexivity. Qed.

Lemma set_keys_replace o k v :
  (map (fun kv => if String.eqb (fst kv) k then (k, v) else kv) o).*1 = o.*1.
Proof.
  induction o as [| [k' v'] o IH]; [reflexivity |].
  cbn [map]. rewrite !fmap_cons, IH. f_equal.
  cbn [fst]. destruct (String.eqb_spec k' k) as [-> | _]; reflexivity.
Qed.

(** The keys after [o[k] = v]: those of [o], and [k] unless it is
    [__proto__]. *)
Lemma set_keys o k v k' :
  k' ∈ (JSObject.set k v o).*1 <-> k' ∈ o.*1 \/ (k' = k /\ k <> "__proto__").
Proof.
  unfold JSObject.set.
  destruct (String.eqb_spec k "__proto__") as [Hp | Hp].
  - split; [intros H; left; exact H | intros [H | [_ H]]; [exact H | contradiction]].
  - destruct (JSObject.has k o) eqn:Hhas.
    + rewrite set_keys_replace. apply has_true in Hhas.
      split; [intros H; left; exact H |].
      intros [H | [-> _]]; [exact H | exact Hhas].
    + rewrite fmap_app, elem_of_app. simpl. rewrite list_elem_of_singleton.
      split; (intros [H | H]; [left; exact H | right]).
      * split; [exact H | exact Hp].
      * destruct H as [H _]. exact H.
Qed.

Lemma set_NoDup o k v : NoDup o.*1 -> NoDup (JSObject.set k v o).*1.
Proof.
  intros Hnd. unfold JSObject.set.
  destruct (String.eqb k "__proto__"); [exact Hnd |].
  destruct (JSObject.has k o) eqn:Hhas.
  - rewrite set_keys_replace. exact Hnd.
  - apply has_false in Hhas. rewrite fmap_app. simpl.
    apply NoDup_app. split; [exact Hnd |]. split.
    + intros x Hx Hin. apply list_elem_of_singleton in Hin. subst x. contradiction.
    + apply NoDup_singleton.
Qed.

(** The property [k] after [o[k] = v] holds [v]. *)
Lemma set_lookup o k v :
  k <> "__proto__" -> (k, v) ∈ JSObject.set k v o.
Proof.
  intros Hp. unfold JSObject.set.
  destruct (String.eqb_spec k "__proto__") as [| _]; [contradiction |].
  destruct (JSObject.has k o) eqn:Hhas.
  - apply has_true in Hhas. apply list_elem_of_fmap in Hhas as [[k0 v0] [Hk Hin]].
    simpl in Hk. subst k0.
    apply list_elem_of_In, in_map_iff. exists (k, v0).
    simpl. rewrite String.eqb_refl. split; [reflexivity |].
    apply list_elem_of_In. exact Hin.
  - apply elem_of_app. right. apply list_elem_of_singleton. reflexivity.
Qed.

(** The other properties stay as they are. *)
Lemma set_other o k v kv :
  fst kv <> k -> kv ∈ o -> kv ∈ JSObject.set k v o.
Proof.
  intros Hne Hin. unfold JSObject.set.
  destruct (String.eqb k "__proto__"); [exact Hin |].
  destruct (JSObject.has k o).
  - apply list_elem_of_In, in_map_iff. exists kv.
    destruct (String.eqb_spec (fst kv) k) as [| _]; [contradiction |].
    split; [reflexivity | apply list_elem_of_In; exact Hin].
  - apply elem_of_app. left. exact Hin.
Qed.

Lemma delete_elem o k kv :
  kv ∈ JSObject.delete k o <-> kv ∈ o /\ fst kv <> k.
Proof.
  unfold JSObject.delete.
  rewrite !list_elem_of_In, filter_In, negb_true_iff, String.eqb_neq. reflexivity.
Qed.

Lemma delete_keys o k k' :
  k' ∈ (JSObject.delete k o).*1 <-> k' ∈ o.*1 /\ k' <> k.
Proof.
  rewrite !list_elem_of_fmap. split.
  - intros [kv [-> Hin]]. apply delete_elem in Hin as [Hin Hne].
    split; [exists kv; split; [reflexivity | exact Hin] | exact Hne].
  - intros [[kv [-> Hin]] Hne]. exists kv. split; [reflexivity |].
    apply delete_elem. split; assumption.
Qed.

Lemma delete_NoDup o k : NoDup o.*1 -> NoDup (JSObject.delete k o).*1.
Proof.
  intros Hnd. unfold JSObject.delete.
  induction o as [| [k0 v0] o IH]; [exact Hnd |].
  simpl in *. apply NoDup_cons in Hnd as [Hnotin Hnd].
  destruct (negb (String.eqb k0 k)); [| apply IH; exact Hnd].
  simpl. apply NoDup_cons. split; [| apply IH; exact Hnd].
  intros Hin. apply Hnotin.
  apply (delete_keys o k k0) in Hin as [Hin _]. exact Hin.
Qed.

Lemma insert_by_index_Permutation (p : N * (string * string)) l :
  JSObject.insert_by_index p l ≡ₚ p :: l.
Proof.
  induction l as [| q l IH]; simpl; [reflexivity |].
  destruct (fst p <=? fst q)%N; [reflexivity |].
  rewrite IH. apply Permutation_swap.
Qed.

(** [Object.entries] lists every property once. *)
Lemma entries_Permutation o : JSObject.entries o ≡ₚ o.
Proof.
  unfold JSObject.entries.
  induction o as [| kv o IH]; [reflexivity |].
  simpl. destruct (JSObject.array_index (fst kv)) as [n |].
  - rewrite insert_by_index_Permutation. simpl. rewrite IH. reflexivity.
  - rewrite <- Permutation_middle. rewrite IH. reflexivity.
Qed.

End Dictionary.

(** ** The users a snapshot gives *)

Section Rebuild.

Implicit Types (acc : JSObject.t * gset string) (msg m : Wire.event)
  (history pre post : list Wire.event).

(** What the body of [forEach] does to [userJoins]. *)
Lemma scan_history_joins acc msg :
  (Client.scan_history acc msg).1
  = if Session.reads_as_join msg then
      JSObject.set (Wire.userName msg) (Wire.userId msg) acc.1
    else if Session.reads_as_leave msg then
      JSObject.delete (Wire.userName msg) acc.1
    else acc.1.
Proof.
  destruct acc as [userJoins userLefts].
  unfold Client.scan_history, Session.reads_as_leave, Session.reads_as_join.
  destruct (JS.truthy (Wire.message msg) && JS.includes "joined" (Wire.message msg));
    [reflexivity |].
  simpl negb. rewrite andb_true_l.
  destruct (JS.truthy (Wire.message msg) && JS.includes "left" (Wire.message msg));
    reflexivity.
Qed.

Lemma scan_history_NoDup acc msg :
  NoDup acc.1.*1 -> NoDup (Client.scan_history acc msg).1.*1.
Proof.
  intros Hnd. rewrite scan_history_joins.
  destruct (Session.reads_as_join msg); [apply set_NoDup; exact Hnd |].
  destruct (Session.reads_as_leave msg); [apply delete_NoDup; exact Hnd | exact Hnd].
Qed.

Lemma fold_scan_NoDup history : forall acc,
  NoDup acc.1.*1 -> NoDup (fold_left Client.scan_history history acc).1.*1.
Proof.
  induction history as [| m history IH]; intros acc Hnd; [exact Hnd |].
  simpl. apply IH, scan_history_NoDup, Hnd.
Qed.

(** A recorded join stays until an event of the same name is read as a join
    or as a leave. *)
Lemma fold_scan_keeps_join (n i : string) post : forall acc,
  (n, i) ∈ acc.1 ->
  (forall m, m ∈ post -> Wire.userName m = n ->
     Session.reads_as_join m = false /\ Session.reads_as_leave m = false) ->
  (n, i) ∈ (fold_left Client.scan_history post acc).1.
Proof.
  induction post as [| m post IH]; intros acc Hin Hpost; [exact Hin |].
  simpl. apply IH; [| intros m' Hm'; apply Hpost; right; exact Hm'].
  rewrite scan_history_joins.
  destruct (decide (Wire.userName m = n)) as [Heq | Hne].
  - destruct (Hpost m (list_elem_of_here _ _) Heq) as [-> ->]. exact Hin.
  - destruct (Session.reads_as_join m).
    + apply set_other; [simpl; congruence | exact Hin].
    + destruct (Session.reads_as_leave m); [| exact Hin].
      apply delete_elem. split; [exact Hin | simpl; congruence].
Qed.

(** A name that is not recorded stays out until an event of that name is
    read as a join. *)
Lemma fold_scan_keeps_absent (n : string) post : forall acc,
  n ∉ acc.1.*1 ->
  (forall m, m ∈ post -> Wire.userName m = n -> Session.reads_as_join m = false) ->
  n ∉ (fold_left Client.scan_history post acc).1.*1.
Proof.
  induction post as [| m post IH]; intros acc Hout Hpost; [exact Hout |].
  simpl. apply IH; [| intros m' Hm'; apply Hpost; right; exact Hm'].
  rewrite scan_history_joins.
  destruct (Session.reads_as_join m) eqn:Hjoin.
  - rewrite set_keys. intros [Hin | [Heq _]]; [exact (Hout Hin) |].
    rewrite (Hpost m (list_elem_of_here _ _) (eq_sym Heq)) in Hjoin. discriminate.
  - destruct (Session.reads_as_leave m); [| exact Hout].
    rewrite delete_keys. intros [Hin _]. exact (Hout Hin).
Qed.

Lemma rebuild_users_elem history (u : Client.user) :
  u ∈ Client.rebuild_users history
  <-> (Client.name u, Client.id u)
      ∈ (fold_left Client.scan_history history (JSObject.empty, ∅)).1.
Proof.
  unfold Client.rebuild_users.
  destruct (fold_left Client.scan_history history (JSObject.empty, ∅))
    as [userJoins userLefts].
  cbn [fst]. rewrite <- (entries_Permutation userJoins) at 2.
  rewrite list_elem_of_In, in_map_iff. split.
  - intros [[n i] [<- Hin]]. apply list_elem_of_In. exact Hin.
  - intros Hin. exists (Client.name u, Client.id u).
    split; [destruct u; reflexivity | apply list_elem_of_In; exact Hin].
Qed.

Lemma rebuild_users_names history :
  Client.name <$> Client.rebuild_users history
  ≡ₚ (fold_left Client.scan_history history (JSObject.empty, ∅)).1.*1.
Proof.
  unfold Client.rebuild_users.
  destruct (fold_left Client.scan_history history (JSObject.empty, ∅))
    as [userJoins userLefts].
  cbn [fst]. rewrite <- (entries_Permutation userJoins) at 2.
  induction (JSObject.entries userJoins) as [| kv l IH]; [reflexivity |].
  cbn [map]. rewrite !fmap_cons. cbn [Client.name]. rewrite IH. reflexivity.
Qed.

End Rebuild.

Section RebuildLatest.

Lemma NoDup_keys_value (o : JSObject.t) (k v v' : string) :
  NoDup o.*1 -> (k, v) ∈ o -> (k, v') ∈ o -> v = v'.
Proof.
  induction o as [| [k0 v0] o IH]; intros Hnd Hv Hv'.
  - apply elem_of_nil in Hv. contradiction.
  - rewrite fmap_cons in Hnd. apply NoDup_cons in Hnd as [Hnotin Hnd].
    apply elem_of_cons in Hv as [Hv | Hv]; apply elem_of_cons in Hv' as [Hv' | Hv'].
    + congruence.
    + exfalso. apply Hnotin. injection Hv as -> ->.
      apply list_elem_of_fmap. exists (k0, v'). split; [reflexivity | exact Hv'].
    + exfalso. apply Hnotin. injection Hv' as -> ->.
      apply list_elem_of_fmap. exists (k0, v). split; [reflexivity | exact Hv].
    + exact (IH Hnd Hv Hv').
Qed.

Lemma fold_scan_no_proto (history : list Wire.event) :
  forall acc : JSObject.t * gset string,
  "__proto__" ∉ acc.1.*1 ->
  "__proto__" ∉ (fold_left Client.scan_history history acc).1.*1.
Proof.
  induction history as [| m history IH]; intros acc Hout; [exact Hout |].
  simpl. apply IH. rewrite scan_history_joins.
  destruct (Session.reads_as_join m).
  - rewrite set_keys. intros [Hin | [Heq Hne]]; [exact (Hout Hin) |].
    apply Hne. symmetry. exact Heq.
  - destruct (Session.reads_as_leave m); [| exact Hout].
    rewrite delete_keys. intros [Hin _]. exact (Hout Hin).
Qed.

Lemma filter_name_absent (k : string) (l : list Client.user) :
  k ∉ Client.name <$> l ->
  List.filter (fun v => String.eqb (Client.name v) k) l = [].
Proof.
  induction l as [| v l IH]; intros Hout; [reflexivity |].
  rewrite fmap_cons in Hout. apply not_elem_of_cons in Hout as [Hne Hout].
  simpl. destruct (String.eqb_spec (Client.name v) k) as [Heq | _]; [congruence |].
  apply IH. exact Hout.
Qed.

(** In a list without two users of one name, the users of the name of a
    listed user are that user alone. *)
Lemma filter_name_singleton (l : list Client.user) (u : Client.user) :
  NoDup (Client.name <$> l) -> u ∈ l ->
  List.filter (fun v => String.eqb (Client.name v) (Client.name u)) l = [u].
Proof.
  induction l as [| v l IH]; intros Hnd Hin.
  - apply elem_of_nil in Hin. contradiction.
  - rewrite fmap_cons in Hnd. apply NoDup_cons in Hnd as [Hout Hnd].
    apply elem_of_cons in Hin as [-> | Hin]; simpl.
    + rewrite String.eqb_refl, filter_name_absent by exact Hout. reflexivity.
    + destruct (String.eqb_spec (Client.name v) (Client.name u)) as [Heq | _].
      * exfalso. apply Hout. rewrite Heq.
        apply list_elem_of_fmap. exists u. split; [reflexivity | exact Hin].
      * apply IH; assumption.
Qed.

Lemma rebuild_users_NoDup (history : list Wire.event) :
  NoDup (Client.name <$> Client.rebuild_users history).
Proof.
  rewrite rebuild_users_names. apply fold_scan_NoDup. simpl. apply NoDup_nil_2.
Qed.

End RebuildLatest.

(** The users that the [load_history] listener rebuilds follow, name by
    name, the latest event of the snapshot that it reads as a join or as a
    leave of that name.  When that event reads as a join, the name is listed
    exactly once, with the socket id of that event (unless the name is
    [__proto__], which is never listed): the users of that name are that one
    user, and no name is listed twice.  When it reads as a leave, or when no event of
    that name reads as a join, the name is not listed. *)
Theorem snapshot_users_follow_the_latest_event (n : string) :
  (forall pre msg post,
     Session.reads_as_join msg = true -> Wire.userName msg = n ->
     n <> "__proto__" ->
     (forall m, m ∈ post -> Wire.userName m = n ->
        Session.reads_as_join m = false /\ Session.reads_as_leave m = false) ->
     (forall u,
        (u ∈ Client.rebuild_users (pre ++ msg :: post) /\ Client.name u = n)
        <-> u = Client.User (Wire.userId msg) n)
     /\ List.filter (fun u => String.eqb (Client.name u) n)
          (Client.rebuild_users (pre ++ msg :: post))
        = [Client.User (Wire.userId msg) n]
     /\ NoDup (Client.name <$> Client.rebuild_users (pre ++ msg :: post)))
  /\ (forall pre msg post,
        Session.reads_as_leave msg = true -> Wire.userName msg = n ->
        (forall m, m ∈ post -> Wire.userName m = n ->
           Session.reads_as_join m = false) ->
        forall u, u ∈ Client.rebuild_users (pre ++ msg :: post) -> Client.name u <> n)
  /\ (forall history,
        (forall m, m ∈ history -> Wire.userName m = n ->
           Session.reads_as_join m = false) ->
        forall u, u ∈ Client.rebuild_users history -> Client.name u <> n)
  /\ (forall history u,
        u ∈ Client.rebuild_users history -> Client.name u <> "__proto__").
Proof.
  split; [| split; [| split]].
  - intros pre msg post Hjoin Hname Hproto Hpost.
    assert (Hrec : (n, Wire.userId msg)
                   ∈ (fold_left Client.scan_history (pre ++ msg :: post)
                        (JSObject.empty, ∅)).1).
    { rewrite fold_left_app. simpl. apply fold_scan_keeps_join; [| exact Hpost].
      rewrite scan_history_joins, Hjoin, Hname.
      apply set_lookup. exact Hproto. }
    assert (Hlisted : Client.User (Wire.userId msg) n
                      ∈ Client.rebuild_users (pre ++ msg :: post)).
    { apply rebuild_users_elem. exact Hrec. }
    split; [| split].
    + intros u. split.
      * intros [Hu Hn]. apply rebuild_users_elem in Hu. rewrite Hn in Hu.
        assert (Hid : Client.id u = Wire.userId msg).
        { eapply NoDup_keys_value; [| exact Hu | exact Hrec].
          apply fold_scan_NoDup. simpl. apply NoDup_nil_2. }
        destruct u as [i k]. simpl in *. congruence.
      * intros ->. split; [exact Hlisted | reflexivity].
    + apply (filter_name_singleton _ (Client.User (Wire.userId msg) n));
        [apply rebuild_users_NoDup | exact Hlisted].
    + apply rebuild_users_NoDup.
  - intros pre msg post Hleave Hname Hpost u Hu Hn.
    apply rebuild_users_elem in Hu. rewrite Hn in Hu.
    revert Hu. rewrite fold_left_app. simpl. intros Hu.
    eapply fold_scan_keeps_absent; [| exact Hpost |].
    2: { apply list_elem_of_fmap. exists (n, Client.id u).
         split; [reflexivity | exact Hu]. }
    rewrite scan_history_joins, Hleave.
    assert (Hj : Session.reads_as_join msg = false).
    { unfold Session.reads_as_leave in Hleave.
      destruct (Session.reads_as_join msg); [discriminate | reflexivity]. }
    rewrite Hj, Hname, delete_keys. intros [_ Hne]. apply Hne. reflexivity.
  - intros history Hnever u Hu Hn.
    apply rebuild_users_elem in Hu. rewrite Hn in Hu.
    eapply fold_scan_keeps_absent; [| exact Hnever |].
    2: { apply list_elem_of_fmap. exists (n, Client.id u).
         split; [reflexivity | exact Hu]. }
    simpl. apply not_elem_of_nil.
  - intros history u Hu Hn.
    apply rebuild_users_elem in Hu. rewrite Hn in Hu.
    eapply (fold_scan_no_proto history (JSObject.empty, ∅)).
    + simpl. apply not_elem_of_nil.
    + apply list_elem_of_fmap. exists ("__proto__", Client.id u).
      split; [reflexivity | exact Hu].
Qed.

Lemma snapshot_users_follow_the_latest_event_witness :
  let history :=
    [Server.joinEvent "s1" "alice" "10:00 AM"]
    ++ Server.joinEvent "s2" "alice" "10:05 AM"
       :: [Server.messageEvent "s2" "alice" "hi" "10:06 AM";
           Server.leftEvent "s3" "bob" "10:07 AM" 1] in
  Client.User "s2" "alice" ∈ Client.rebuild_users history.
Proof.
  intros history.
  assert (Hproto : "alice" <> "__proto__") by discriminate.
  assert (Hpost : forall m,
            m ∈ [Server.messageEvent "s2" "alice" "hi" "10:06 AM";
                 Server.leftEvent "s3" "bob" "10:07 AM" 1] ->
            Wire.userName m = "alice" ->
            Session.reads_as_join m = false /\ Session.reads_as_leave m = false).
  { intros m Hm Hn. apply list_elem_of_In in Hm. simpl in Hm.
    destruct Hm as [<- | [<- | []]]; [split; reflexivity | discriminate Hn]. }
  apply (proj1 (proj1 (snapshot_users_follow_the_latest_event "alice")
                  [Server.joinEvent "s1" "alice" "10:00 AM"]
                  (Server.joinEvent "s2" "alice" "10:05 AM")
                  [Server.messageEvent "s2" "alice" "hi" "10:06 AM";
                   Server.leftEvent "s3" "bob" "10:07 AM" 1]
                  eq_refl eq_refl Hproto Hpost)
           (Client.User "s2" "alice")).
  reflexivity.
Defined.

(** ** The users list never shows a name twice *)

Section DistinctNames.

Lemma perform_all_cons (op : Client.operation) ops (st : Client.state) :
  Session.perform_all (op :: ops) st
  = ((Session.perform_all ops (Client.perform op st).1).1,
     (Client.perform op st).2 ++ (Session.perform_all ops (Client.perform op st).1).2).
Proof.
  simpl. destruct (Client.perform op st) as [st1 out1]. simpl.
  destruct (Session.perform_all ops st1) as [st2 out2]. reflexivity.
Qed.

Lemma filter_names_NoDup (p : Client.user -> bool) (l : list Client.user) :
  NoDup (Client.name <$> l) -> NoDup (Client.name <$> List.filter p l).
Proof.
  induction l as [| u l IH]; intros Hnd; [exact Hnd |].
  rewrite fmap_cons in Hnd. apply NoDup_cons in Hnd as [Hnotin Hnd].
  simpl. destruct (p u); [| apply IH; exact Hnd].
  rewrite fmap_cons. apply NoDup_cons. split; [| apply IH; exact Hnd].
  intros Hin. apply Hnotin.
  apply list_elem_of_fmap in Hin as [u' [Hu' Hin]].
  apply list_elem_of_fmap. exists u'. split; [exact Hu' |].
  apply list_elem_of_In in Hin. apply filter_In in Hin as [Hin _].
  apply list_elem_of_In. exact Hin.
Qed.

Lemma snoc_names_NoDup (l : list Client.user) (u : Client.user) :
  NoDup (Client.name <$> l) -> Client.name u ∉ Client.name <$> l ->
  NoDup (Client.name <$> (l ++ [u])).
Proof.
  intros Hnd Hnotin. rewrite fmap_app. apply NoDup_app.
  split; [exact Hnd |]. split; [| apply NoDup_singleton].
  intros x Hx Hin. apply list_elem_of_singleton in Hin. subst x. contradiction.
Qed.

Lemma perform_names_NoDup (op : Client.operation) (st : Client.state) :
  NoDup (Client.name <$> Client.users st) ->
  NoDup (Client.name <$> Client.users (Client.perform op st).1).
Proof.
  intros Hnd. destruct op; simpl; try exact Hnd.
  - destruct (Client.loginPhase st); exact Hnd.
  - destruct (Client.loginPhase st); exact Hnd.
  - unfold Client.joinChat.
    destruct (JS.truthy (JS.trim (Client.userName st))); exact Hnd.
  - unfold Client.sendMessage.
    destruct (JS.truthy (JS.trim (Client.messageInput st))); exact Hnd.
  - apply NoDup_nil_2.
  - unfold Client.toggleConnection.
    destruct (Client.isConnected st);
      [| destruct (JS.truthy (JS.trim (Client.userName st)))]; exact Hnd.
  - destruct t; exact Hnd.
  - rewrite rebuild_users_names. apply fold_scan_NoDup. simpl. apply NoDup_nil_2.
  - destruct (existsb _ (Client.users st)) eqn:Hex; simpl; [exact Hnd |].
    apply snoc_names_NoDup; [exact Hnd |]. simpl.
    intros Hin. apply list_elem_of_fmap in Hin as [u [Hu Hin]].
    apply not_true_iff_false in Hex. apply Hex.
    apply existsb_exists. exists u. split; [apply list_elem_of_In; exact Hin |].
    rewrite Hu, String.eqb_refl. apply orb_true_r.
  - apply snoc_names_NoDup; [apply filter_names_NoDup; exact Hnd |]. simpl.
    intros Hin. apply list_elem_of_fmap in Hin as [u [Hu Hin]].
    apply list_elem_of_In, filter_In in Hin as [_ Hne].
    rewrite <- Hu, String.eqb_refl in Hne. discriminate.
  - apply filter_names_NoDup. exact Hnd.
Qed.

End DistinctNames.

(** Whatever runs in the component -- buttons, timers, events of the socket
    -- the users list holds no name twice, if it did not before; so it never
    does from the mounted component on. *)
Theorem users_names_stay_distinct (ops : list Client.operation) :
  (forall st,
     NoDup (Client.name <$> Client.users st) ->
     NoDup (Client.name <$> Client.users (Session.perform_all ops st).1))
  /\ NoDup (Client.name <$> Client.users (Session.perform_all ops Client.initial).1).
Proof.
  assert (Hall : forall st,
            NoDup (Client.name <$> Client.users st) ->
            NoDup (Client.name <$> Client.users (Session.perform_all ops st).1)).
  { induction ops as [| op ops IH]; intros st Hnd; [exact Hnd |].
    rewrite perform_all_cons. simpl. apply IH, perform_names_NoDup, Hnd. }
  split; [exact Hall |]. apply Hall. simpl. apply NoDup_nil_2.
Qed.

Lemma users_names_stay_distinct_witness :
  NoDup (Client.name <$> Client.users
           (Session.perform_all
              [Client.socket_user_joined (Server.joinEvent "s2" "alice" "10:00 AM");
               Client.socket_user_reconnected "s3" "bob"]
              (Client.set_users [Client.User "s1" "alice"; Client.User "s4" "bob"]
                 Client.initial)).1).
Proof.
  apply (proj1 (users_names_stay_distinct _)).
  simpl. apply NoDup_cons. split.
  - intros Hin. apply list_elem_of_singleton in Hin. discriminate Hin.
  - apply NoDup_singleton.
Defined.

(** ** The name the client announces *)

Section Announce.

(** In the chat screen, whatever runs but [leaveChat] keeps the screen and
    the name, and announces that name only. *)
Lemma perform_in_chat (op : Client.operation) (st : Client.state) :
  Client.loginPhase st = false -> op <> Client.click_leaveChat ->
  Client.loginPhase (Client.perform op st).1 = false
  /\ Client.userName (Client.perform op st).1 = Client.userName st
  /\ forall name,
       Client.socket_emit_user_join name ∈ (Client.perform op st).2 ->
       name = Client.userName st.
Proof.
  intros Hchat Hop.
  assert (Hnone : forall name,
            Client.socket_emit_user_join name ∈ ([] : list Client.command) ->
            name = Client.userName st).
  { intros name Hin. apply elem_of_nil in Hin. contradiction. }
  destruct op; simpl; try contradiction; try (split; [| split]; trivial; fail).
  - rewrite Hchat. split; [| split]; trivial.
  - rewrite Hchat. split; [| split]; trivial.
  - unfold Client.joinChat.
    destruct (JS.truthy (JS.trim (Client.userName st))); split; try split; trivial.
  - unfold Client.sendMessage.
    destruct (JS.truthy (JS.trim (Client.messageInput st)));
      (split; [| split]; trivial).
    intros name Hin. apply list_elem_of_singleton in Hin. discriminate Hin.
  - unfold Client.connectFromPrompt. split; [| split]; trivial.
    intros name Hin. simpl in Hin.
    destruct connected; simpl in Hin; apply list_elem_of_In in Hin; simpl in Hin;
      intuition discriminate.
  - unfold Client.toggleConnection.
    destruct (Client.isConnected st);
      [| destruct (JS.truthy (JS.trim (Client.userName st)))];
      (split; [| split]; trivial);
      intros name Hin; apply list_elem_of_In in Hin; simpl in Hin;
      intuition discriminate.
  - destruct t; (split; [| split]; trivial);
      intros name Hin; apply list_elem_of_singleton in Hin; congruence.
Qed.

Lemma perform_all_in_chat (ops : list Client.operation) : forall st,
  Client.loginPhase st = false ->
  (forall op, op ∈ ops -> op <> Client.click_leaveChat) ->
  forall name,
    Client.socket_emit_user_join name ∈ (Session.perform_all ops st).2 ->
    name = Client.userName st.
Proof.
  induction ops as [| op ops IH]; intros st Hchat Hops name Hin.
  - apply elem_of_nil in Hin. contradiction.
  - rewrite perform_all_cons in Hin. simpl in Hin.
    destruct (perform_in_chat op st Hchat (Hops op (list_elem_of_here _ _)))
      as (Hchat' & Hname' & Hemit).
    apply elem_of_app in Hin as [Hin | Hin]; [exact (Hemit name Hin) |].
    rewrite <- Hname'. apply (IH _ Hchat'); [| exact Hin].
    intros op' Hop'. apply Hops. right. exact Hop'.
Qed.

End Announce.

(** Once [joinChat] has accepted a name (one that is not blank), everything
    the component then sends as [user_join] is that name, as long as
    [leaveChat] does not run.  When [leaveChat] runs while a join timer is
    pending, the timer announces the empty string. *)
Theorem client_announces_the_chosen_name :
  (forall ops st,
     JS.blank (Client.userName st) = false ->
     (forall op, op ∈ ops -> op <> Client.click_leaveChat) ->
     forall name,
       Client.socket_emit_user_join name
       ∈ (Session.perform_all (Client.click_joinChat :: ops) st).2 ->
       name = Client.userName st /\ JS.blank name = false)
  /\ (forall st t,
        (Session.perform_all [Client.click_leaveChat; Client.timer_fires t] st).2
        = [Client.socket_disconnect; Client.socket_emit_user_join ""]).
Proof.
  split.
  - intros ops st Hname Hops name Hin.
    rewrite perform_all_cons in Hin.
    assert (Hjoin : Client.perform Client.click_joinChat st
                    = (Client.set_showInitialConnectPrompt true
                         (Client.set_loginPhase false st), [])).
    { simpl. unfold Client.joinChat.
      destruct (JS.truthy (JS.trim (Client.userName st))) eqn:Htrim; [reflexivity |].
      apply truthy_false, trim_empty_iff in Htrim. congruence. }
    rewrite Hjoin in Hin. simpl in Hin.
    apply perform_all_in_chat in Hin; [| reflexivity | exact Hops].
    simpl in Hin. subst name. split; [reflexivity | exact Hname].
  - intros st t. destruct t; reflexivity.
Qed.

Lemma client_announces_the_chosen_name_witness :
  Client.socket_emit_user_join "alice"
  ∈ (Session.perform_all
       [Client.click_joinChat; Client.click_connectFromPrompt false;
        Client.timer_fires Client.join_after_prompt]
       (Client.set_userName "alice" Client.initial)).2
  /\ JS.blank "alice" = false.
Proof.
  assert (Hin : Client.socket_emit_user_join "alice"
                ∈ (Session.perform_all
                     [Client.click_joinChat; Client.click_connectFromPrompt false;
                      Client.timer_fires Client.join_after_prompt]
                     (Client.set_userName "alice" Client.initial)).2).
  { apply list_elem_of_In. simpl. right. right. left. reflexivity. }
  split; [exact Hin |].
  apply (proj1 client_announces_the_chosen_name
           [Client.click_connectFromPrompt false;
            Client.timer_fires Client.join_after_prompt]
           (Client.set_userName "alice" Client.initial)) in Hin.
  - exact (proj2 Hin).
  - reflexivity.
  - intros op Hop. apply list_elem_of_In in Hop. simpl in Hop.
    destruct Hop as [<- | [<- | []]]; discriminate.
Defined.

(** * Server and client together *)

(** ** The timeline of a listener and the timeline of a late joiner *)

Section Timelines.

Variable me : string.







End Timelines.



(** ** A message from the input to the timeline *)

(** A message typed by a user who is registered under the name of the
    component: [sendMessage] sends the text as typed and empties the input;
    the server broadcasts it under that name; the [receive_message] listener
    adds it to the timeline as the user's own, and keeps the users.  A second
    [sendMessage] then sends nothing.  A blank input is not sent at all. *)
Theorem typed_message_comes_back_as_own
    (me now : string) (c : Client.state) (srv : Server.state) :
  (JS.blank (Client.messageInput c) = false ->
   Server.users srv !! me = Some (Client.userName c) ->
   Client.userName c <> "" ->
   let '(c1, commands) := Client.sendMessage c in
   let '(srv', out) := Server.on_send_message me (Client.messageInput c) now srv in
   let c2 := Session.deliver_all me out c1 in
   commands = [Client.socket_emit_send_message (Client.messageInput c)]
   /\ Client.messageInput c1 = ""
   /\ Client.messages c2
      = Client.messages c
        ++ [Client.chat me (Client.userName c) (Client.messageInput c) now true]
   /\ Client.users c2 = Client.users c
   /\ Client.sendMessage c2 = (c2, []))
  /\ (JS.blank (Client.messageInput c) = true -> Client.sendMessage c = (c, [])).
Proof.
  split.
  - intros Htext Hreg Hname.
    assert (Htrim : JS.truthy (JS.trim (Client.messageInput c)) = true).
    { apply truthy_true. intros Hempty. apply trim_empty_iff in Hempty. congruence. }
    apply truthy_true in Hname.
    unfold Client.sendMessage at 1. rewrite Htrim.
    unfold Server.on_send_message. rewrite Hreg, Hname. simpl.
    rewrite String.eqb_refl.
    repeat (split; [reflexivity |]). reflexivity.
  - intros Hblank. apply trim_empty_iff in Hblank.
    unfold Client.sendMessage. rewrite Hblank. reflexivity.
Qed.

Lemma typed_message_comes_back_as_own_witness :
  let c := Client.State "alice" " hi " [] [Client.User "s1" "alice"]
             true false false false in
  let srv := (Server.on_user_join "s1" "alice" "10:00 AM" Server.initial).1 in
  Client.messages
    (Session.deliver_all "s1"
       (Server.on_send_message "s1" " hi " "10:01 AM" srv).2
       (Client.sendMessage c).1)
  = [Client.chat "s1" "alice" " hi " "10:01 AM" true].
Proof.
  intros c srv.
  assert (Htext : JS.blank (Client.messageInput c) = false) by reflexivity.
  assert (Hreg : Server.users srv !! "s1" = Some (Client.userName c))
    by (vm_compute; reflexivity).
  assert (Hname : Client.userName c <> "") by discriminate.
  pose proof (proj1 (typed_message_comes_back_as_own "s1" "10:01 AM" c srv)
                Htext Hreg Hname) as H.
  change (Client.messageInput c) with " hi " in H.
  destruct (Client.sendMessage c) as [c1 commands].
  destruct (Server.on_send_message "s1" " hi " "10:01 AM" srv) as [srv' out].
  destruct H as (_ & _ & Hmessages & _). exact Hmessages.
Defined.

(** ** The separator outside the timeline *)

(** No separator is shown for an index that is not the index of an entry
    after the first: a negative index, 0, or an index at or beyond the end of
    the timeline. *)
Theorem no_separator_outside_the_timeline (st : Client.state) (index : Z) :
  (index <= 0)%Z \/ (Z.of_nat (length (Client.messages st)) <= index)%Z ->
  Client.shouldShowTimeSeparator index st = false.
Proof.
  intros Hout. unfold Client.shouldShowTimeSeparator.
  destruct (Z.eqb_spec index 0) as [| Hne]; [reflexivity |].
  assert (Hnone : Client.item (Client.messages st) index = None).
  { unfold Client.item. destruct (Z.ltb_spec index 0) as [| Hge]; [reflexivity |].
    apply lookup_ge_None. lia. }
  rewrite Hnone. reflexivity.
Qed.

Lemma no_separator_outside_the_timeline_witness :
  let st := Client.set_messages
              [Client.system "alice joined the chat" "10:00 AM";
               Client.chat "s1" "alice" "hi" "10:05 AM" false] Client.initial in
  Client.shouldShowTimeSeparator (-1) st = false
  /\ Client.shouldShowTimeSeparator 2 st = false.
Proof.
  intros st. split.
  - apply (no_separator_outside_the_timeline st (-1)%Z). left. lia.
  - apply (no_separator_outside_the_timeline st 2%Z). right. simpl. lia.
Defined.

(** * Two connections under one name *)

Section SharedName.

(** After an event read as a leave of [n], and no later join of [n], the
    replay does not list [n]. *)
Lemma rebuild_users_after_leave (n : string) (pre post : list Wire.event)
    (msg : Wire.event) (u : Client.user) :
  Session.reads_as_leave msg = true -> Wire.userName msg = n ->
  (forall m, m ∈ post -> Wire.userName m = n -> Session.reads_as_join m = false) ->
  u ∈ Client.rebuild_users (pre ++ msg :: post) -> Client.name u <> n.
Proof.
  intros Hleave Hname Hpost Hu Hn.
  apply rebuild_users_elem in Hu. rewrite Hn in Hu.
  revert Hu. rewrite fold_left_app. simpl. intros Hu.
  eapply fold_scan_keeps_absent; [| exact Hpost |].
  2: { apply list_elem_of_fmap. exists (n, Client.id u).
       split; [reflexivity | exact Hu]. }
  rewrite scan_history_joins, Hleave.
  assert (Hj : Session.reads_as_join msg = false).
  { unfold Session.reads_as_leave in Hleave.
    destruct (Session.reads_as_join msg); [discriminate | reflexivity]. }
  rewrite Hj, Hname, delete_keys. intros [_ Hne]. apply Hne. reflexivity.
Qed.

Lemma leftEvent_reads_as_leave (id name now : string) (total : nat) :
  JS.includes "joined" name = false ->
  Session.reads_as_leave (Server.leftEvent id name now total) = true.
Proof.
  intros Hname. unfold Session.reads_as_leave, Session.reads_as_join, Server.leftEvent.
  simpl. rewrite left_text_includes_joined, Hname, left_text_includes_left,
    text_truthy by reflexivity.
  reflexivity.
Qed.

End SharedName.

(** Two sockets hold the same name and one of them disconnects.  The other
    keeps its entry, yet a leave event of that name is logged and broadcast;
    a component that loads the history from then on does not list the name
    (the name not containing "joined"), although a connection still holds
    it. *)
Theorem leave_of_one_of_two_holders
    (st : Server.state) (id other name now : string) :
  id <> other ->
  Server.users st !! id = Some name ->
  Server.users st !! other = Some name ->
  name <> "" ->
  let '(st', out) := Server.on_disconnect id now st in
  Server.users st' !! other = Some name
  /\ Server.values_include (Server.users st') name = true
  /\ (exists total,
        out = [Server.io_emit_user_left
                 (Wire.Event id name (name +:+ " left the chat") now (Some total))])
  /\ (JS.includes "joined" name = false ->
      forall u, u ∈ Client.rebuild_users (Server.messageHistory st') ->
                Client.name u <> name).
Proof.
  intros Hne Hid Hother Hname. apply truthy_true in Hname.
  unfold Server.on_disconnect. rewrite Hid, Hname. simpl.
  assert (Hkept : delete id (Server.users st) !! other = Some name).
  { rewrite lookup_delete_ne by exact Hne. exact Hother. }
  split; [exact Hkept |].
  split; [apply values_include_true; exists other; exact Hkept |].
  split; [eexists; reflexivity |].
  intros Hclean u Hu.
  destruct (append_history_one Server.MAX_HISTORY (Server.messageHistory st)
              (Server.leftEvent id name now (size (delete id (Server.users st)))))
    as (evicted & _ & _ & Hlast); [unfold Server.MAX_HISTORY; lia |].
  apply last_Some in Hlast as [pre Hpre].
  rewrite Hpre in Hu.
  revert Hu. apply rebuild_users_after_leave.
  - apply leftEvent_reads_as_leave. exact Hclean.
  - reflexivity.
  - intros m Hm. apply elem_of_nil in Hm. contradiction.
Qed.

Lemma leave_of_one_of_two_holders_witness :
  let st := (Server.run [Server.user_join "s1" "alice" "10:00 AM";
                         Server.user_join "s2" "alice" "10:01 AM"] Server.initial).1 in
  let st' := (Server.on_disconnect "s1" "10:02 AM" st).1 in
  Server.users st' !! "s2" = Some "alice"
  /\ forall u, u ∈ Client.rebuild_users (Server.messageHistory st') ->
               Client.name u <> "alice".
Proof.
  intros st st'.
  assert (Hne : "s1" <> "s2") by discriminate.
  assert (Hid : Server.users st !! "s1" = Some "alice") by (vm_compute; reflexivity).
  assert (Hother : Server.users st !! "s2" = Some "alice") by (vm_compute; reflexivity).
  assert (Hname : "alice" <> "") by discriminate.
  pose proof (leave_of_one_of_two_holders st "s1" "s2" "alice" "10:02 AM"
                Hne Hid Hother Hname) as H.
  subst st'. destruct (Server.on_disconnect "s1" "10:02 AM" st) as [st' out].
  destruct H as (Hkept & _ & _ & Hreplay).
  split; [exact Hkept | apply Hreplay; reflexivity].
Defined.

(** A socket that announces the name it already has changes nothing on the
    server and is broadcast as a reconnect: announcing twice in a row never
    logs a second join. *)
Theorem repeated_announce_changes_nothing
    (st : Server.state) (id name now later : string) :
  (Server.users st !! id = Some name ->
   Server.on_user_join id name now st = (st, [Server.io_emit_user_reconnected id name]))
  /\ Server.on_user_join id name later (Server.on_user_join id name now st).1
     = ((Server.on_user_join id name now st).1,
        [Server.io_emit_user_reconnected id name]).
Proof.
  assert (Hsame : forall s, Server.users s !! id = Some name ->
            Server.on_user_join id name later s
            = (s, [Server.io_emit_user_reconnected id name])
            /\ Server.on_user_join id name now s
               = (s, [Server.io_emit_user_reconnected id name])).
  { intros s Hid.
    assert (Hheld : Server.values_include (Server.users s) name = true).
    { apply values_include_true. exists id. exact Hid. }
    unfold Server.on_user_join. rewrite Hheld. simpl.
    rewrite insert_id by exact Hid. rewrite state_eta. split; reflexivity. }
  split.
  - intros Hid. apply Hsame. exact Hid.
  - apply Hsame.
    pose proof (handle_users (Server.user_join id name now) st) as Hu.
    simpl in Hu. rewrite Hu. apply lookup_insert_eq.
Qed.

Lemma repeated_announce_changes_nothing_witness :
  let st := (Server.on_user_join "s1" "alice" "10:00 AM" Server.initial).1 in
  Server.on_user_join "s1" "alice" "10:05 AM" st
  = (st, [Server.io_emit_user_reconnected "s1" "alice"]).
Proof.
  intros st.
  apply (proj1 (repeated_announce_changes_nothing st "s1" "alice" "10:05 AM" "")).
  vm_compute. reflexivity.
Defined.

(** * The snapshot sent on connection *)

Section Snapshots.

Lemma run_history_length (inputs : list Server.input) :
  (length (Server.messageHistory (Server.run inputs Server.initial).1) <= 100)%nat.
Proof.
  rewrite run_history.
  destruct (fold_append_history Server.MAX_HISTORY
              (Server.broadcast_events (Server.run inputs Server.initial).2) [])
    as [Hlen _]; [simpl; lia |].
  exact Hlen.
Qed.

(** Only the [connection] handler sends [load_history]. *)
Lemma handle_load_history (i : Server.input) (st : Server.state)
    (to : string) (h : list Wire.event) :
  Server.socket_emit_load_history to h ∈ (Server.handle i st).2 ->
  i = Server.connection to /\ h = Server.messageHistory st.
Proof.
  destruct i as [id | id name now | id body now | id | id now]; simpl.
  - intros Hin. apply list_elem_of_singleton in Hin.
    injection Hin as -> ->. split; reflexivity.
  - unfold Server.on_user_join.
    destruct (Server.values_include (Server.users st) name); simpl;
      intros Hin; apply list_elem_of_singleton in Hin; discriminate Hin.
  - unfold Server.on_send_message.
    destruct (Server.users st !! id) as [name |]; simpl;
      [destruct (JS.truthy name); simpl |];
      intros Hin;
      first [apply elem_of_nil in Hin; contradiction
            | apply list_elem_of_singleton in Hin; discriminate Hin].
  - intros Hin. apply list_elem_of_singleton in Hin. discriminate Hin.
  - unfold Server.on_disconnect.
    destruct (Server.users st !! id) as [name |]; simpl;
      [destruct (JS.truthy name); simpl |];
      intros Hin;
      first [apply elem_of_nil in Hin; contradiction
            | apply list_elem_of_singleton in Hin; discriminate Hin].
Qed.

Lemma run_load_history (inputs : list Server.input) :
  forall (st : Server.state) (to : string) (h : list Wire.event),
  Server.socket_emit_load_history to h ∈ (Server.run inputs st).2 ->
  exists pre post,
    inputs = pre ++ Server.connection to :: post
    /\ h = Server.messageHistory (Server.run pre st).1.
Proof.
  induction inputs as [| i inputs IH]; intros st to h Hin.
  - apply elem_of_nil in Hin. contradiction.
  - rewrite run_cons in Hin. cbn [snd] in Hin.
    apply elem_of_app in Hin as [Hin | Hin].
    + apply handle_load_history in Hin as [-> ->].
      exists [], inputs. split; reflexivity.
    + apply IH in Hin as (pre & post & -> & ->).
      exists (i :: pre), post. split; [reflexivity |].
      rewrite run_cons. reflexivity.
Qed.

End Snapshots.

(** Every [load_history] the server sends answers a connection of the socket
    it goes to, and carries the history as it was when that socket
    connected, at most 100 events; and every connection is answered so. *)
Theorem snapshot_is_the_history_at_connection :
  (forall inputs to h,
     Server.socket_emit_load_history to h ∈ (Server.run inputs Server.initial).2 ->
     exists pre post,
       inputs = pre ++ Server.connection to :: post
       /\ h = Server.messageHistory (Server.run pre Server.initial).1
       /\ (length h <= 100)%nat)
  /\ (forall pre post to,
        Server.socket_emit_load_history to
          (Server.messageHistory (Server.run pre Server.initial).1)
        ∈ (Server.run (pre ++ Server.connection to :: post) Server.initial).2).
Proof.
  split.
  - intros inputs to h Hin.
    apply run_load_history in Hin as (pre & post & Hinputs & Hh).
    exists pre, post. split; [exact Hinputs |]. split; [exact Hh |].
    rewrite Hh. apply run_history_length.
  - intros pre post to. rewrite run_app. cbn [snd]. rewrite run_cons. cbn [snd].
    apply elem_of_app. right. apply elem_of_app. left.
    simpl. apply list_elem_of_singleton. reflexivity.
Qed.

Lemma snapshot_is_the_history_at_connection_witness :
  exists pre post,
    [Server.user_join "s1" "alice" "10:00 AM"; Server.connection "s2"]
    = pre ++ Server.connection "s2" :: post
    /\ [Server.joinEvent "s1" "alice" "10:00 AM"]
       = Server.messageHistory (Server.run pre Server.initial).1
    /\ (length [Server.joinEvent "s1" "alice" "10:00 AM"] <= 100)%nat.
Proof.
  apply (proj1 snapshot_is_the_history_at_connection
           [Server.user_join "s1" "alice" "10:00 AM"; Server.connection "s2"]
           "s2" [Server.joinEvent "s1" "alice" "10:00 AM"]).
  apply list_elem_of_In. simpl. right. left. reflexivity.
Defined.

(** * Presence as a listener sees it *)

(** An announce, from the server to a connected component.  A name that no
    connection held comes as a join: one system entry "<name> joined the
    chat", and the user at the end of the list unless its socket id or its
    name is listed already.  A name that a connection held comes as a
    reconnect: no timeline entry, and the users of that name taken out of
    the list, the others keeping their order, with the one pair of the new
    socket id and the name put at the end. *)
Theorem announce_reaches_the_listener
    (listener id name now : string) (srv : Server.state) (c : Client.state) :
  let '(srv', out) := Server.on_user_join id name now srv in
  let c' := Session.deliver_all listener out c in
  ((forall other, Server.users srv !! other <> Some name) ->
   Client.messages c'
   = Client.messages c ++ [Client.system (name +:+ " joined the chat") now]
   /\ ((forall u, u ∈ Client.users c -> Client.id u <> id /\ Client.name u <> name) ->
       Client.users c' = Client.users c ++ [Client.User id name])
   /\ ((exists u, u ∈ Client.users c /\ (Client.id u = id \/ Client.name u = name)) ->
       Client.users c' = Client.users c))
  /\ ((exists other, Server.users srv !! other = Some name) ->
      Client.messages c' = Client.messages c
      /\ Client.users c'
         = List.filter (fun u => negb (String.eqb (Client.name u) name)) (Client.users c)
           ++ [Client.User id name]
      /\ List.filter (fun u => String.eqb (Client.name u) name) (Client.users c')
         = [Client.User id name]
      /\ forall u, u ∈ Client.users c'
           <-> u = Client.User id name \/ (u ∈ Client.users c /\ Client.name u <> name)).
Proof.
  assert (Hgone : forall l : list Client.user,
            List.filter (fun u => String.eqb (Client.name u) name)
              (List.filter (fun u => negb (String.eqb (Client.name u) name)) l) = []).
  { induction l as [| v l IH]; [reflexivity |]. simpl.
    destruct (String.eqb (Client.name v) name) eqn:Hv; simpl; [exact IH |].
    rewrite Hv. exact IH. }
  unfold Server.on_user_join.
  destruct (Server.values_include (Server.users srv) name) eqn:Hheld; simpl.
  - split.
    + intros Hfree. apply values_include_false in Hfree. congruence.
    + intros _. split; [reflexivity |]. split; [reflexivity |].
      split.
      { rewrite List.filter_app, Hgone. simpl. rewrite String.eqb_refl. reflexivity. }
      intros u. rewrite elem_of_app, list_elem_of_singleton, !list_elem_of_In, filter_In.
      rewrite negb_true_iff, String.eqb_neq. tauto.
  - split.
    + intros _. split; [reflexivity |]. split.
      * intros Hnew.
        destruct (existsb _ (Client.users c)) eqn:Hex; [| reflexivity].
        apply existsb_exists in Hex as [u [Hin Hu]].
        apply list_elem_of_In in Hin. destruct (Hnew u Hin) as [Hi Hn].
        apply orb_true_iff in Hu as [Hu | Hu]; apply String.eqb_eq in Hu; contradiction.
      * intros [u [Hin Hu]].
        destruct (existsb _ (Client.users c)) eqn:Hex; [reflexivity |].
        apply not_true_iff_false in Hex. exfalso. apply Hex.
        apply existsb_exists. exists u.
        split; [apply list_elem_of_In; exact Hin |].
        apply orb_true_iff. destruct Hu as [Hu | Hu]; [left | right];
          apply String.eqb_eq; exact Hu.
    + intros Hsome. apply values_include_true in Hsome. congruence.
Qed.

Lemma announce_reaches_the_listener_witness :
  let srv := (Server.on_user_join "s1" "alice" "10:00 AM" Server.initial).1 in
  let c := Client.set_users [Client.User "s1" "alice"] Client.initial in
  Client.users
    (Session.deliver_all "s9" (Server.on_user_join "s2" "bob" "10:01 AM" srv).2 c)
  = [Client.User "s1" "alice"; Client.User "s2" "bob"].
Proof.
  intros srv c.
  pose proof (announce_reaches_the_listener "s9" "s2" "bob" "10:01 AM" srv c) as H.
  destruct (Server.on_user_join "s2" "bob" "10:01 AM" srv) as [srv' out].
  destruct H as [Hjoin _].
  destruct Hjoin as (_ & Hadd & _).
  - intros other. apply values_include_false. vm_compute. reflexivity.
  - apply Hadd. intros u Hu. apply list_elem_of_singleton in Hu. subst u.
    split; discriminate.
Defined.

(** A disconnect of a socket registered under a non-empty name, from the
    server to the connected component of another socket: one system entry "<name> left the
    chat", and the users of that socket id out of the list, the others
    staying in their order. *)
Theorem leave_reaches_the_listener
    (listener id name now : string) (srv : Server.state) (c : Client.state) :
  listener <> id ->
  Server.users srv !! id = Some name -> name <> "" ->
  let '(srv', out) := Server.on_disconnect id now srv in
  let c' := Session.deliver_all listener out c in
  Client.messages c'
  = Client.messages c ++ [Client.system (name +:+ " left the chat") now]
  /\ Client.users c'
     = List.filter (fun u => negb (String.eqb (Client.id u) id)) (Client.users c)
  /\ (forall u, u ∈ Client.users c' <-> u ∈ Client.users c /\ Client.id u <> id).
Proof.
  intros _ Hid Hname. apply truthy_true in Hname.
  unfold Server.on_disconnect. rewrite Hid, Hname. simpl.
  split; [reflexivity |]. split; [reflexivity |].
  intros u. rewrite !list_elem_of_In, filter_In, negb_true_iff, String.eqb_neq.
  reflexivity.
Qed.

Lemma leave_reaches_the_listener_witness :
  let srv := (Server.on_user_join "s1" "alice" "10:00 AM" Server.initial).1 in
  let c := Client.set_users [Client.User "s1" "alice"; Client.User "s2" "bob"]
             Client.initial in
  Client.users
    (Session.deliver_all "s2" (Server.on_disconnect "s1" "10:02 AM" srv).2 c)
  = [Client.User "s2" "bob"].
Proof.
  intros srv c.
  assert (Hid : Server.users srv !! "s1" = Some "alice") by (vm_compute; reflexivity).
  assert (Hname : "alice" <> "") by discriminate.
  assert (Hother : "s2" <> "s1") by discriminate.
  pose proof (leave_reaches_the_listener "s2" "s1" "alice" "10:02 AM" srv c
                Hother Hid Hname) as H.
  destruct (Server.on_disconnect "s1" "10:02 AM" srv) as [srv' out].
  destruct H as (_ & Husers & _). cbn [snd]. cbv zeta in Husers.
  rewrite Husers. reflexivity.
Defined.

(** * Disconnecting and reconnecting by the status button *)


